(** * InterView: source hierarchy resolution engine

    A shallow embedding of [src/interview/sources.py] and the endpoint
    handlers of [src/interview/api.py].

    Conventions of the model:
    - a Python [datetime] is a [Z] counting microseconds (the resolution of
      [datetime]); [datetime.utcnow()] is the instant [now] of the request
      environment, read as one instant for the whole request;
    - a Python [float] is an IEEE 754 binary64 [spec_float] (Stdlib's
      SpecFloat), so [int((a - b).total_seconds() * 1000)] is computed with
      the roundings CPython performs ([cache_age_ms]);
    - the process-wide mutable state of the [SourceManager] (the dicts of the
      projection cache and of the component poller) is the record [world];
      every outbound HTTP request is appended to [w_calls];
    - the downstream services are the functions of [Remote]: they answer a
      request, parsed into the model the code builds from the JSON body;
    - a raised exception is the left side of the result of the monad [M];
      Python keeps the mutations made before a raise, so the state is
      returned on both sides. *)

From Stdlib Require Import ZArith Sorted Floats.SpecFloat.
From stdpp Require Import base list gmap strings pretty.

Local Open Scope Z_scope.

(** ** Data model ([models.py]) *)

Inductive Source :=
| PROJECTION_CACHE
| LEDGER_MIRROR
| COMPONENT_POLL
| STORAGE_METADATA
| GLOBAL_LEDGER.

Inductive Freshness :=
| CACHE_OK
| PREFER_FRESH
| FORCE_FRESH.

Inductive TaskState :=
| UNKNOWN
| ACCEPTED
| IN_PROGRESS
| ESCALATED
| BLOCKED
| RESOLVED
| SHIPPED.

Definition datetime := Z.

(** [datetime.min], 0001-01-01T00:00:00, in microseconds since the epoch. *)
Definition datetime_min : datetime := -62135596800000000.

Record ResponseMetadata := mkResponseMetadata {
  source : Source;
  freshness_age_ms : Z;
  truncated : bool;
  next_page_token : option string;
  cost_units : Z
}.

(** [ResponseMetadata(source=..., freshness_age_ms=..., truncated=..., cost_units=...)] *)
Definition metadata (s : Source) (age : Z) (tr : bool) (cost : Z) : ResponseMetadata :=
  mkResponseMetadata s age tr None cost.

Record RequestControls := mkRequestControls {
  limit : Z;
  since : option datetime;
  time_window_hours : Z;
  include_body : bool;
  freshness : Freshness
}.

(** Pydantic validation of [RequestControls]: [limit] has [ge=1, le=200],
    [time_window_hours] has [ge=1, le=168]; a request outside these bounds
    is rejected before any handler runs. *)
Definition validate_RequestControls (l : Z) (s : option datetime) (tw : Z)
    (body : bool) (f : Freshness) : option RequestControls :=
  if (1 <=? l) && (l <=? 200) && (1 <=? tw) && (tw <=? 168)
  then Some (mkRequestControls l s tw body f)
  else None.

Record StatusSummary := mkStatusSummary {
  ss_tenant_id : string;
  ss_root_task_id : string;
  state : TaskState;
  latest_receipt_id : option string;
  last_updated_at : option datetime;
  open_obligations_count : option Z;
  shipment_status : option string;
  shipment_manifest_pointer : option string;
  artifact_pointers : list string
}.

Record StatusReceiptsRequest := mkStatusReceiptsRequest {
  str_tenant_id : string;
  str_task_id : option string;
  str_root_task_id : option string
}.

Record StatusReceiptsResponse := mkStatusReceiptsResponse {
  srs_status : StatusSummary;
  srs_metadata : ResponseMetadata
}.

Record ReceiptHeader := mkReceiptHeader {
  rh_receipt_id : string;
  rh_phase : string;
  rh_task_id : string;
  rh_root_task_id : option string;
  rh_tenant_id : string;
  rh_recipient_ai : option string;
  rh_created_at : option datetime;
  rh_stored_at : option datetime
}.

Record SearchReceiptsRequest := mkSearchReceiptsRequest {
  sq_tenant_id : string;
  sq_root_task_id : string;
  sq_phase : option string;
  sq_recipient_ai : option string;
  sq_controls : RequestControls
}.

Record SearchReceiptsResponse := mkSearchReceiptsResponse {
  receipts : list ReceiptHeader;
  sr_metadata : ResponseMetadata
}.

Record FullReceipt := mkFullReceipt {
  fr_receipt_id : string;
  fr_tenant_id : string;
  fr_task_id : string;
  fr_root_task_id : option string;
  fr_parent_task_id : option string;
  fr_caused_by_receipt_id : option string;
  fr_phase : string;
  fr_status : option string;
  fr_from_principal : option string;
  fr_for_principal : option string;
  fr_source_system : option string;
  fr_recipient_ai : option string;
  fr_task_type : option string;
  fr_task_summary : option string;
  fr_outcome_kind : option string;
  fr_outcome_text : option string;
  fr_artifact_pointer : option string;
  fr_escalation_class : option string;
  fr_escalation_reason : option string;
  fr_escalation_to : option string;
  fr_created_at : option datetime;
  fr_stored_at : option datetime;
  fr_completed_at : option datetime;
  fr_redacted : bool
}.

Record MetricsSnapshot := mkMetricsSnapshot {
  queued_count : Z;
  leased_count : Z;
  succeeded_count : Z;
  failed_count : Z
}.

Record HealthAsyncRequest := mkHealthAsyncRequest {
  ha_tenant_id : string;
  ha_verbose : bool
}.

Record HealthAsyncResponse := mkHealthAsyncResponse {
  component_id : string;
  reachable : bool;
  version : option string;
  uptime_seconds : option Z;
  error_budget_status : option string;
  metrics_snapshot : option MetricsSnapshot;
  hr_metadata : ResponseMetadata
}.

Record QueueAsyncRequest := mkQueueAsyncRequest {
  qa_tenant_id : string;
  qa_queue_id : option string;
  qa_limit : Z;
  qa_include_examples : bool
}.

Record QueueItemHeader := mkQueueItemHeader {
  qi_task_id : string;
  qi_task_type : string;
  qi_status : string;
  qi_priority : Z;
  qi_created_at : option datetime;
  qi_age_ms : Z
}.

Record QueueAsyncResponse := mkQueueAsyncResponse {
  queue_depth : Z;
  oldest_item_age_ms : Z;
  active_leases_count : Z;
  items : list QueueItemHeader;
  qr_metadata : ResponseMetadata
}.

(** The JSON object an AsyncGate poll returns ([dict[str, Any]]): one field
    per key the handlers read, [None] when the key is absent. *)
Record AsyncGatePayload := mkAsyncGatePayload {
  p_component_id : option string;
  p_version : option string;
  p_uptime_seconds : option Z;
  p_error_budget_status : option string;
  p_metrics : option MetricsSnapshot;
  p_queue_depth : option Z;
  p_oldest_item_age_ms : option Z;
  p_active_leases_count : option Z;
  p_items : option (list QueueItemHeader)
}.

(** [data.get(key, default)] *)
Definition dict_get {A} (o : option A) (d : A) : A :=
  match o with Some a => a | None => d end.

(** ** Configuration ([config.py]) *)

Record Settings := mkSettings {
  ledger_mirror_url : option string;
  asyncgate_url : option string;
  allow_global_ledger : bool;
  global_ledger_url : option string;
  component_poll_rate_limit_per_minute : Z;
  component_poll_timeout_ms : Z;
  component_poll_cache_seconds : Z;
  default_limit : Z;
  max_limit : Z;
  default_time_window_hours : Z;
  max_time_window_hours : Z;
  projection_cache_ttl_seconds : Z
}.

(** Python truthiness of an optional string: [None] and [""] are false. *)
Definition truthy (o : option string) : bool :=
  match o with
  | Some EmptyString | None => false
  | Some _ => true
  end.

(** [a or b] on optional strings. *)
Definition py_or (a b : option string) : option string :=
  if truthy a then a else b.

(** ** Errors ([sources.py] and FastAPI) *)

(** [HTTPException.detail]: a plain message, or a dumped [GlobalLedgerError]. *)
Inductive Detail :=
| DetailText (msg : string)
| DetailError (error_code : string) (message : string) (detail : option string).

Inductive exn :=
| SourceUnavailableError (msg : string)
| DataSourceError (msg : string)
| GlobalLedgerDisabledError (msg : string)
| HTTPException (status_code : Z) (detail : Detail)
(** the built-in [TypeError]; raised in a dependency, FastAPI answers it
    with a 500 response *)
| TypeError (msg : string).

(** [isinstance(e, SourceUnavailableError)] *)
Definition is_SourceUnavailableError (e : exn) : bool :=
  match e with SourceUnavailableError _ => true | _ => false end.

(** [isinstance(e, DataSourceError)]: the base class of the three source errors. *)
Definition is_DataSourceError (e : exn) : bool :=
  match e with
  | SourceUnavailableError _ | DataSourceError _ | GlobalLedgerDisabledError _ => true
  | HTTPException _ _ | TypeError _ => false
  end.

Definition exn_msg (e : exn) : string :=
  match e with
  | SourceUnavailableError m | DataSourceError m | GlobalLedgerDisabledError m => m
  | HTTPException _ (DetailText m) => m
  | HTTPException _ (DetailError _ m _) => m
  | TypeError m => m
  end.

(** ** Downstream services *)

(** What [client.get(...)] followed by [raise_for_status()] and [.json()]
    yields: a 2xx body, a non-2xx status (an [httpx.HTTPStatusError] once
    [raise_for_status] runs), a timeout, or another transport error; all of
    the failures are [httpx.HTTPError]s, and each carries the text
    [str(e)] of the exception raised for it. *)
Inductive http_outcome (A : Type) :=
| HttpOk (body : A)
| HttpStatus (code : Z) (text : string)
| HttpTimeout (text : string)
| HttpTransportError (text : string).
Arguments HttpOk {A} _.
Arguments HttpStatus {A} _ _.
Arguments HttpTimeout {A} _.
Arguments HttpTransportError {A} _.

(** [str(e)] for the [httpx.HTTPError] [e] of a failed request. *)
Definition http_error_str {A} (r : http_outcome A) : string :=
  match r with
  | HttpOk _ => ""
  | HttpStatus _ t | HttpTimeout t | HttpTransportError t => t
  end.

(** The [params] dict of [LedgerMirror.query_receipts]; optional keys are
    present only when the code adds them. *)
Record MirrorSearchParams := mkMirrorSearchParams {
  ms_tenant_id : string;
  ms_root_task_id : string;
  ms_limit : Z;
  ms_phase : option string;
  ms_recipient_ai : option string;
  ms_since : option datetime
}.

(** The [params] dict of [ComponentPoller.poll_asyncgate_queue]. *)
Record QueueParams := mkQueueParams {
  qp_tenant_id : string;
  qp_limit : Z;
  qp_include_examples : bool;
  qp_queue_id : option string
}.

(** An outbound request: the URL and the query parameters. *)
Inductive Outbound :=
| GetMirrorSearch (url : string) (p : MirrorSearchParams)
| GetMirrorReceipt (url : string) (tenant_id receipt_id : string)
| GetAsyncGateHealth (url : string) (tenant_id : string) (verbose : bool)
| GetAsyncGateQueue (url : string) (p : QueueParams)
| GetGlobalSearch (url : string) (tenant_id root_task_id : string).

Record Remote := mkRemote {
  mirror_search : MirrorSearchParams -> http_outcome (list ReceiptHeader);
  mirror_get : string -> string -> http_outcome FullReceipt;
  asyncgate_health : string -> bool -> http_outcome AsyncGatePayload;
  asyncgate_queue : QueueParams -> http_outcome AsyncGatePayload;
  global_search : string -> string -> http_outcome (list ReceiptHeader)
}.

(** ** Process state and the request monad *)

Record world := mkWorld {
  (** [ProjectionCache._status_cache] *)
  w_status_cache : gmap (string * string) (StatusSummary * datetime);
  (** [ProjectionCache._receipt_headers] *)
  w_receipt_headers : gmap string (list ReceiptHeader);
  (** [ProjectionCache._receipt_cache] *)
  w_receipt_cache : gmap string (FullReceipt * datetime);
  (** [ComponentPoller._cache] *)
  w_poll_cache : gmap string (AsyncGatePayload * datetime);
  (** [ComponentPoller._rate_limiter] *)
  w_rate_limiter : gmap string (list datetime);
  (** outbound HTTP requests issued so far, oldest first *)
  w_calls : list Outbound
}.

Record env := mkEnv {
  settings : Settings;
  now : datetime;
  remote : Remote
}.

Definition M (A : Type) : Type := env -> world -> world * (exn + A).

Definition retM {A} (a : A) : M A := fun _ w => (w, inr a).

Definition bindM {A B} (m : M A) (k : A -> M B) : M B :=
  fun e w =>
    match m e w with
    | (w', inl x) => (w', inl x)
    | (w', inr a) => k a e w'
    end.

Notation "'let*' x ':=' c 'in' k" := (bindM c (fun x => k))
  (at level 200, x name, c at level 100, k at level 200).

Definition throw {A} (x : exn) : M A := fun _ w => (w, inl x).

(** [try: m except ...]: [h] picks the handler of the first matching
    [except] clause, [None] re-raises. *)
Definition catchM {A} (m : M A) (h : exn -> option (M A)) : M A :=
  fun e w =>
    match m e w with
    | (w', inl x) => match h x with Some k => k e w' | None => (w', inl x) end
    | r => r
    end.

Definition askE : M env := fun e w => (w, inr e).
Definition getW : M world := fun _ w => (w, inr w).
Definition modifyW (f : world -> world) : M unit := fun _ w => (f w, inr tt).

Definition set_status_cache m w :=
  mkWorld m (w_receipt_headers w) (w_receipt_cache w) (w_poll_cache w)
    (w_rate_limiter w) (w_calls w).
Definition set_receipt_cache m w :=
  mkWorld (w_status_cache w) (w_receipt_headers w) m (w_poll_cache w)
    (w_rate_limiter w) (w_calls w).
Definition set_poll_cache m w :=
  mkWorld (w_status_cache w) (w_receipt_headers w) (w_receipt_cache w) m
    (w_rate_limiter w) (w_calls w).
Definition set_rate_limiter m w :=
  mkWorld (w_status_cache w) (w_receipt_headers w) (w_receipt_cache w)
    (w_poll_cache w) m (w_calls w).
Definition log_call (o : Outbound) (w : world) :=
  mkWorld (w_status_cache w) (w_receipt_headers w) (w_receipt_cache w)
    (w_poll_cache w) (w_rate_limiter w) (w_calls w ++ [o]).

(** [await client.get(...)]: the request is issued, then answered. *)
Definition http_get {A} (o : Outbound) (answer : Remote -> http_outcome A)
    : M (http_outcome A) :=
  let* _ := modifyW (log_call o) in
  let* e := askE in
  retM (answer (remote e)).

(** ** ProjectionCache *)

(** ** Python floats: IEEE 754 binary64 *)

(** [a / b] for Python ints [a] and [b > 0]: the correctly rounded quotient
    ([long_true_divide]); the division core rounds [a * 2^0 / b * 2^0]
    once, whatever the size of [a]. *)
Definition py_int_truediv (a : Z) (b : positive) : spec_float :=
  match a with
  | Z0 => S754_zero false
  | Zpos m => SFdiv 53 1024 (S754_finite false m 0) (S754_finite false b 0)
  | Zneg m => SFdiv 53 1024 (S754_finite true m 0) (S754_finite false b 0)
  end.

(** [float(n)] *)
Definition py_float_of_int (n : Z) : spec_float := binary_normalize 53 1024 n 0 false.

(** [x * y] on floats *)
Definition py_float_mul (x y : spec_float) : spec_float := SFmul 53 1024 x y.

(** [int(x)] for a finite float: truncation toward zero. (A timedelta is
    bounded, so the infinite and NaN cases, where [int] raises, do not
    arise below.) *)
Definition py_float_int (x : spec_float) : Z :=
  match x with
  | S754_finite s m e =>
      let n := if 0 <=? e then Z.shiftl (Zpos m) e else Z.shiftr (Zpos m) (- e) in
      if s then - n else n
  | _ => 0
  end.

(** [timedelta.total_seconds()] of a timedelta of [us] microseconds:
    [delta_to_microseconds(self) / 10**6]. *)
Definition total_seconds (us : Z) : spec_float := py_int_truediv us 1000000.

(** [ProjectionCache._cache_age_ms], and the age computed inline by
    [ComponentPoller._get_cached]:
    [int((datetime.utcnow() - cached_at).total_seconds() * 1000)]. *)
Definition cache_age_ms (now cached_at : datetime) : Z :=
  py_float_int (py_float_mul (total_seconds (now - cached_at)) (py_float_of_int 1000)).

(** [ProjectionCache.get_status] *)
Definition pc_get_status (tenant_id root_task_id : string)
    : M (option StatusSummary * Z) :=
  let key := (tenant_id, root_task_id) in
  let* e := askE in
  let* w := getW in
  match w_status_cache w !! key with
  | Some (status, cached_at) =>
      let age_ms := cache_age_ms (now e) cached_at in
      if age_ms <? projection_cache_ttl_seconds (settings e) * 1000
      then retM (Some status, age_ms)
      else
        (* Expired *)
        let* _ := modifyW (fun w => set_status_cache (delete key (w_status_cache w)) w) in
        retM (None, 0)
  | None => retM (None, 0)
  end.

(** [ProjectionCache.cache_status] *)
Definition pc_cache_status (status : StatusSummary) : M unit :=
  let key := (ss_tenant_id status, ss_root_task_id status) in
  let* e := askE in
  modifyW (fun w => set_status_cache (<[key := (status, now e)]> (w_status_cache w)) w).

(** [sorted(xs, key=k, reverse=True)]: stable, so elements with equal keys
    keep their input order. *)
Fixpoint insert_desc {A} (k : A -> Z) (x : A) (xs : list A) : list A :=
  match xs with
  | [] => [x]
  | y :: ys => if k x <=? k y then y :: insert_desc k x ys else x :: y :: ys
  end.

Fixpoint sort_desc_aux {A} (k : A -> Z) (acc xs : list A) : list A :=
  match xs with
  | [] => acc
  | x :: xs' => sort_desc_aux k (insert_desc k x acc) xs'
  end.

Definition sorted_desc {A} (k : A -> Z) (xs : list A) : list A :=
  sort_desc_aux k [] xs.

(** [xs[:n]], with Python's reading of a negative bound. *)
Definition py_prefix {A} (n : Z) (xs : list A) : list A :=
  if 0 <=? n then take (Z.to_nat n) xs
  else take (Z.to_nat (Z.of_nat (length xs) + n)) xs.

Definition created_at_key (h : ReceiptHeader) : Z :=
  dict_get (rh_created_at h) datetime_min.

(** [ProjectionCache.search_receipts] only reads the cache: it is the pure
    function [pc_search] of the state, wrapped below. *)
Definition pc_search (w : world) (tenant_id root_task_id : string)
    (phase recipient_ai : option string) (since : option datetime) (limit : Z)
    : list ReceiptHeader * Z :=
  let key := tenant_id +:+ ":" +:+ root_task_id in
  let headers := dict_get (w_receipt_headers w !! key) [] in
  (* Apply filters *)
  let headers :=
    match phase with
    | Some p => if truthy phase then List.filter (fun h => bool_decide (rh_phase h = p)) headers else headers
    | None => headers
    end in
  let headers :=
    match recipient_ai with
    | Some r =>
        if truthy recipient_ai
        then List.filter (fun h => bool_decide (rh_recipient_ai h = Some r)) headers else headers
    | None => headers
    end in
  let headers :=
    match since with
    | Some s =>
        List.filter (fun h => match rh_created_at h with
                              | Some c => s <=? c
                              | None => false
                              end) headers
    | None => headers
    end in
  (* Sort by created_at descending *)
  let headers := sorted_desc created_at_key headers in
  (* Apply limit *)
  let headers := py_prefix limit headers in
  let age_ms := match headers with [] => 0 | _ => 1000 end in
  (headers, age_ms).

Definition pc_search_receipts (tenant_id root_task_id : string)
    (phase recipient_ai : option string) (since : option datetime) (limit : Z)
    : M (list ReceiptHeader * Z) :=
  let* w := getW in
  retM (pc_search w tenant_id root_task_id phase recipient_ai since limit).

(** [ProjectionCache.get_receipt] *)
Definition pc_get_receipt (tenant_id receipt_id : string)
    : M (option FullReceipt * Z) :=
  let key := tenant_id +:+ ":" +:+ receipt_id in
  let* e := askE in
  let* w := getW in
  match w_receipt_cache w !! key with
  | Some (receipt, cached_at) => retM (Some receipt, cache_age_ms (now e) cached_at)
  | None => retM (None, 0)
  end.

(** [ProjectionCache.cache_receipt] *)
Definition pc_cache_receipt (receipt : FullReceipt) : M unit :=
  let key := fr_tenant_id receipt +:+ ":" +:+ fr_receipt_id receipt in
  let* e := askE in
  modifyW (fun w => set_receipt_cache (<[key := (receipt, now e)]> (w_receipt_cache w)) w).

(** [if not url: raise ...]: the URL when it is truthy. *)
Definition configured (o : option string) : option string :=
  if truthy o then o else None.

(** ** LedgerMirror *)

(** [LedgerMirror.query_receipts] *)
Definition lm_query_receipts (tenant_id root_task_id : string)
    (phase recipient_ai : option string) (since : option datetime) (limit : Z)
    : M (list ReceiptHeader) :=
  let* e := askE in
  match configured (ledger_mirror_url (settings e)) with
  | None => throw (SourceUnavailableError "Ledger mirror URL not configured")
  | Some url =>
      let params := mkMirrorSearchParams tenant_id root_task_id limit
        (if truthy phase then phase else None)
        (if truthy recipient_ai then recipient_ai else None)
        since in
      let* r := http_get (GetMirrorSearch (url +:+ "/receipts/search") params)
                         (fun rm => mirror_search rm params) in
      match r with
      | HttpOk rs => retM rs
      | _ => throw (SourceUnavailableError ("Ledger mirror query failed: " +:+ http_error_str r))
      end
  end.

(** [LedgerMirror.get_receipt]: a 404 is an absent receipt, not an error. *)
Definition lm_get_receipt (tenant_id receipt_id : string) : M (option FullReceipt) :=
  let* e := askE in
  match configured (ledger_mirror_url (settings e)) with
  | None => throw (SourceUnavailableError "Ledger mirror URL not configured")
  | Some url =>
      let* r := http_get (GetMirrorReceipt (url +:+ "/receipts/" +:+ receipt_id)
                                           tenant_id receipt_id)
                         (fun rm => mirror_get rm tenant_id receipt_id) in
      match r with
      | HttpStatus 404 _ => retM None
      | HttpOk rc => retM (Some rc)
      | _ => throw (SourceUnavailableError ("Ledger mirror get failed: " +:+ http_error_str r))
      end
  end.

(** ** GlobalLedger *)

(** [GlobalLedger._check_access] *)
Definition gl_check_access : M unit :=
  let* e := askE in
  if negb (allow_global_ledger (settings e))
  then throw (GlobalLedgerDisabledError
      "Global ledger access is disabled. Set INTERVIEW_ALLOW_GLOBAL_LEDGER=true to enable.")
  else if negb (truthy (global_ledger_url (settings e)))
  then throw (SourceUnavailableError "Global ledger URL not configured")
  else retM tt.

(** [GlobalLedger.query_receipts] *)
Definition gl_query_receipts (tenant_id root_task_id : string) : M (list ReceiptHeader) :=
  let* _ := gl_check_access in
  let* e := askE in
  let url := dict_get (global_ledger_url (settings e)) "" in
  let* r := http_get (GetGlobalSearch (url +:+ "/receipts/search") tenant_id root_task_id)
                     (fun rm => global_search rm tenant_id root_task_id) in
  match r with
  | HttpOk rs => retM rs
  | _ => throw (SourceUnavailableError ("Global ledger query failed: " +:+ http_error_str r))
  end.

(** ** ComponentPoller *)

(** [timedelta(minutes=1)] in microseconds. *)
Definition rate_window : Z := 60000000.

(** The timestamps of [_rate_limiter[component]] kept by the cleaning step. *)
Definition recent_calls (now : datetime) (ts : list datetime) : list datetime :=
  List.filter (fun t => now - t <? rate_window) ts.

(** [ComponentPoller._check_rate_limit] *)
Definition cp_check_rate_limit (component : string) : M bool :=
  let* e := askE in
  let* w := getW in
  let ts := recent_calls (now e) (dict_get (w_rate_limiter w !! component) []) in
  (* Clean old entries *)
  let* _ := modifyW (fun w => set_rate_limiter (<[component := ts]> (w_rate_limiter w)) w) in
  (* Check limit *)
  if component_poll_rate_limit_per_minute (settings e) <=? Z.of_nat (length ts)
  then retM false
  else
    let* _ := modifyW (fun w =>
      set_rate_limiter (<[component := ts ++ [now e]]> (w_rate_limiter w)) w) in
    retM true.

(** [ComponentPoller._get_cached] *)
Definition cp_get_cached (cache_key : string) : M (option (AsyncGatePayload * Z)) :=
  let* e := askE in
  let* w := getW in
  match w_poll_cache w !! cache_key with
  | Some (data, cached_at) =>
      let age_ms := cache_age_ms (now e) cached_at in
      if age_ms <? component_poll_cache_seconds (settings e) * 1000
      then retM (Some (data, age_ms))
      else
        let* _ := modifyW (fun w => set_poll_cache (delete cache_key (w_poll_cache w)) w) in
        retM None
  | None => retM None
  end.

(** [ComponentPoller._set_cache] *)
Definition cp_set_cache (cache_key : string) (data : AsyncGatePayload) : M unit :=
  let* e := askE in
  modifyW (fun w => set_poll_cache (<[cache_key := (data, now e)]> (w_poll_cache w)) w).

(** [str(b)] for a Python bool, [str(x)] for an optional string. *)
Definition py_str_bool (b : bool) : string := if b then "True" else "False".
Definition py_str_opt (o : option string) : string := dict_get o "None".

Definition health_cache_key (tenant_id : string) (verbose : bool) : string :=
  "asyncgate:health:" +:+ tenant_id +:+ ":" +:+ py_str_bool verbose.

Definition queue_cache_key (tenant_id : string) (queue_id : option string)
    (limit : Z) (include_examples : bool) : string :=
  "asyncgate:queue:" +:+ tenant_id +:+ ":" +:+ py_str_opt queue_id +:+ ":"
    +:+ pretty limit +:+ ":" +:+ py_str_bool include_examples.

(** [ComponentPoller.poll_asyncgate_health] *)
Definition cp_poll_asyncgate_health (tenant_id : string) (verbose : bool)
    : M (AsyncGatePayload * Z) :=
  let cache_key := health_cache_key tenant_id verbose in
  (* Check cache first *)
  let* cached := cp_get_cached cache_key in
  match cached with
  | Some c => retM c
  | None =>
      let* e := askE in
      match configured (asyncgate_url (settings e)) with
      | None => throw (SourceUnavailableError "AsyncGate URL not configured")
      | Some url =>
          let* ok := cp_check_rate_limit "asyncgate" in
          if negb ok then throw (DataSourceError "Rate limit exceeded for AsyncGate polls")
          else
            let* r := http_get (GetAsyncGateHealth (url +:+ "/health") tenant_id verbose)
                               (fun rm => asyncgate_health rm tenant_id verbose) in
            match r with
            | HttpOk data =>
                let* _ := cp_set_cache cache_key data in
                retM (data, 0)
            | HttpTimeout _ => throw (SourceUnavailableError "AsyncGate health poll timed out")
            | _ => throw (SourceUnavailableError ("AsyncGate health poll failed: " +:+ http_error_str r))
            end
      end
  end.

(** [ComponentPoller.poll_asyncgate_queue] *)
Definition cp_poll_asyncgate_queue (tenant_id : string) (queue_id : option string)
    (limit : Z) (include_examples : bool) : M (AsyncGatePayload * Z) :=
  let cache_key := queue_cache_key tenant_id queue_id limit include_examples in
  (* Check cache first *)
  let* cached := cp_get_cached cache_key in
  match cached with
  | Some c => retM c
  | None =>
      let* e := askE in
      match configured (asyncgate_url (settings e)) with
      | None => throw (SourceUnavailableError "AsyncGate URL not configured")
      | Some url =>
          let* ok := cp_check_rate_limit "asyncgate" in
          if negb ok then throw (DataSourceError "Rate limit exceeded for AsyncGate polls")
          else
            let params := mkQueueParams tenant_id (Z.min limit 50) include_examples
                            (if truthy queue_id then queue_id else None) in
            let* r := http_get (GetAsyncGateQueue (url +:+ "/queues/diagnostics") params)
                               (fun rm => asyncgate_queue rm params) in
            match r with
            | HttpOk data =>
                let* _ := cp_set_cache cache_key data in
                retM (data, 0)
            | HttpTimeout _ => throw (SourceUnavailableError "AsyncGate queue poll timed out")
            | _ => throw (SourceUnavailableError ("AsyncGate queue poll failed: " +:+ http_error_str r))
            end
      end
  end.

(** ** Endpoint handlers ([api.py]) *)

Definition unknown_status (tenant_id root_task_id : string) : StatusSummary :=
  mkStatusSummary tenant_id root_task_id UNKNOWN None None None None None [].

(** [status_receipts_interview] *)
Definition status_receipts_interview (request : StatusReceiptsRequest)
    : M StatusReceiptsResponse :=
  (* Resolve root_task_id *)
  let root := py_or (str_root_task_id request) (str_task_id request) in
  match configured root with
  | None => throw (HTTPException 400 (DetailText "Either task_id or root_task_id is required"))
  | Some root_task_id =>
      (* Try projection cache first *)
      let* r := pc_get_status (str_tenant_id request) root_task_id in
      match r with
      | (Some status, age_ms) =>
          retM (mkStatusReceiptsResponse status (metadata PROJECTION_CACHE age_ms false 1))
      | (None, _) =>
          (* Fall back to unknown status if no cached data *)
          retM (mkStatusReceiptsResponse (unknown_status (str_tenant_id request) root_task_id)
                  (metadata PROJECTION_CACHE 0 false 1))
      end
  end.

(** [timedelta(hours=1)] in microseconds. *)
Definition hour : Z := 3600000000.

(** [search_receipts_interview] *)
Definition search_receipts_interview (request : SearchReceiptsRequest)
    : M SearchReceiptsResponse :=
  let controls := sq_controls request in
  let* e := askE in
  (* Enforce limits *)
  let limit := Z.min (limit controls) (max_limit (settings e)) in
  (* Calculate time filter *)
  let since := match since controls with
               | Some s => s
               | None => now e - time_window_hours controls * hour
               end in
  (* Try projection cache first *)
  let* r := pc_search_receipts (sq_tenant_id request) (sq_root_task_id request)
              (sq_phase request) (sq_recipient_ai request) (Some since) limit in
  let '(receipts, age_ms) := r in
  let source := PROJECTION_CACHE in
  let truncated := limit <=? Z.of_nat (length receipts) in
  (* If cache is empty and prefer_fresh/force_fresh, try ledger mirror *)
  let* res :=
    match receipts, freshness controls with
    | [], (PREFER_FRESH | FORCE_FRESH) =>
        catchM
          (let* rs := lm_query_receipts (sq_tenant_id request) (sq_root_task_id request)
                        (sq_phase request) (sq_recipient_ai request) (Some since) limit in
           retM (rs, LEDGER_MIRROR, 0, limit <=? Z.of_nat (length rs)))
          (fun x => if is_SourceUnavailableError x
                    then Some (retM (receipts, source, age_ms, truncated))
                    else None)
    | _, _ => retM (receipts, source, age_ms, truncated)
    end in
  let '(receipts, source, age_ms, truncated) := res in
  retM (mkSearchReceiptsResponse receipts
          (metadata source age_ms truncated (Z.max 1 (Z.of_nat (length receipts) / 10)))).

(** [health_async_interview] *)
Definition health_async_interview (request : HealthAsyncRequest) : M HealthAsyncResponse :=
  catchM
    (let* r := cp_poll_asyncgate_health (ha_tenant_id request) (ha_verbose request) in
     let '(data, age_ms) := r in
     let metrics := if ha_verbose request then p_metrics data else None in
     retM (mkHealthAsyncResponse (dict_get (p_component_id data) "asyncgate") true
             (p_version data) (p_uptime_seconds data) (p_error_budget_status data) metrics
             (metadata COMPONENT_POLL age_ms false 5)))
    (fun x =>
       if is_SourceUnavailableError x
       then Some (retM (mkHealthAsyncResponse "asyncgate" false None None None None
                          (metadata COMPONENT_POLL 0 false 1)))
       else if is_DataSourceError x
       then Some (throw (HTTPException 429 (DetailText (exn_msg x))))
       else None).

(** [queue_async_interview] *)
Definition queue_async_interview (request : QueueAsyncRequest) : M QueueAsyncResponse :=
  (* Enforce limit bounds per spec *)
  let limit := Z.min (qa_limit request) 50 in
  catchM
    (let* r := cp_poll_asyncgate_queue (qa_tenant_id request) (qa_queue_id request)
                 limit (qa_include_examples request) in
     let '(data, age_ms) := r in
     let items :=
       match qa_include_examples request, p_items data with
       | true, Some its => py_prefix limit its
       | _, _ => []
       end in
     retM (mkQueueAsyncResponse (dict_get (p_queue_depth data) 0)
             (dict_get (p_oldest_item_age_ms data) 0)
             (dict_get (p_active_leases_count data) 0) items
             (metadata COMPONENT_POLL age_ms (limit <=? Z.of_nat (length items)) 5)))
    (fun x =>
       if is_SourceUnavailableError x
       then Some (retM (mkQueueAsyncResponse 0 0 0 [] (metadata COMPONENT_POLL 0 false 1)))
       else if is_DataSourceError x
       then Some (throw (HTTPException 429 (DetailText (exn_msg x))))
       else None).

Definition global_ledger_disabled_detail (detail : option string) : Detail :=
  DetailError "GLOBAL_LEDGER_DISABLED" "Global ledger access is disabled" detail.

(** [global_ledger_query] *)
Definition global_ledger_query (tenant_id root_task_id : string)
    : M (list ReceiptHeader * ResponseMetadata) :=
  let* e := askE in
  if negb (allow_global_ledger (settings e))
  then throw (HTTPException 403 (global_ledger_disabled_detail
      (Some "Set INTERVIEW_ALLOW_GLOBAL_LEDGER=true to enable direct ledger queries")))
  else
    catchM
      (let* rs := gl_query_receipts tenant_id root_task_id in
       retM (rs, metadata GLOBAL_LEDGER 0 false 100))
      (fun x =>
         match x with
         | GlobalLedgerDisabledError _ =>
             Some (throw (HTTPException 403 (global_ledger_disabled_detail None)))
         | SourceUnavailableError m => Some (throw (HTTPException 503 (DetailText m)))
         | _ => None
         end).

(** ** Concrete configurations used by the examples *)

(** The defaults of [config.Settings], with every downstream URL configured
    and the global ledger left disabled. *)
Definition settings_example : Settings :=
  mkSettings (Some "http://mirror") (Some "http://asyncgate") false
    (Some "http://global") 60 500 5 100 200 24 168 60.

Definition header_example : ReceiptHeader :=
  mkReceiptHeader "r1" "accepted" "t1" (Some "root") "acme" None
    (Some 1000000000000000) None.

Definition receipt_example : FullReceipt :=
  mkFullReceipt "r1" "acme" "t1" (Some "root") None None "complete" None None None
    None None None None None None None None None None None None None false.

Definition payload_example : AsyncGatePayload :=
  mkAsyncGatePayload (Some "asyncgate") (Some "1.0") (Some 10) None None
    (Some 3) (Some 500) (Some 1)
    (Some [mkQueueItemHeader "t1" "build" "queued" 0 None 0;
           mkQueueItemHeader "t2" "build" "queued" 0 None 0]).

(** Every downstream service up and answering. *)
Definition remote_up : Remote :=
  mkRemote (fun _ => HttpOk [header_example]) (fun _ _ => HttpOk receipt_example)
    (fun _ _ => HttpOk payload_example) (fun _ => HttpOk payload_example)
    (fun _ _ => HttpOk [header_example]).

(** The text of the [httpx.ConnectError] raised when nothing listens. *)
Definition connect_error_str : string := "All connection attempts failed".

(** Every downstream service unreachable. *)
Definition remote_down : Remote :=
  mkRemote (fun _ => HttpTransportError connect_error_str)
    (fun _ _ => HttpTransportError connect_error_str)
    (fun _ _ => HttpTransportError connect_error_str)
    (fun _ => HttpTransportError connect_error_str)
    (fun _ _ => HttpTransportError connect_error_str).

Definition t0 : datetime := 1700000000000000.

Definition world_empty : world := mkWorld ∅ ∅ ∅ ∅ ∅ [].

Definition search_request (f : Freshness) : SearchReceiptsRequest :=
  mkSearchReceiptsRequest "acme" "root" None None (mkRequestControls 100 None 24 false f).

(** A receipt header created one second before [t0]. *)
Definition header_recent : ReceiptHeader :=
  mkReceiptHeader "r2" "accepted" "t2" (Some "root") "acme" None (Some (t0 - 1000000)) None.

(** A world whose projection cache holds [header_recent] for lineage
    ("acme", "root"). *)
Definition world_with_header : world :=
  mkWorld ∅ {[ "acme:root" := [header_recent] ]} ∅ ∅ ∅ [].

(** ** get.receipt.interview *)

Record GetReceiptRequest := mkGetReceiptRequest {
  gr_tenant_id : string;
  gr_receipt_id : string
}.

Record GetReceiptResponse := mkGetReceiptResponse {
  receipt : option FullReceipt;
  found : bool;
  gr_metadata : ResponseMetadata
}.

(** [get_receipt_interview] *)
Definition get_receipt_interview (request : GetReceiptRequest) : M GetReceiptResponse :=
  (* Try projection cache first *)
  let* r := pc_get_receipt (gr_tenant_id request) (gr_receipt_id request) in
  let not_found :=
    retM (mkGetReceiptResponse None false (metadata PROJECTION_CACHE 0 false 1)) in
  match r with
  | (Some rc, age_ms) =>
      retM (mkGetReceiptResponse (Some rc) true (metadata PROJECTION_CACHE age_ms false 1))
  | (None, _) =>
      (* Try ledger mirror *)
      let* found_rc :=
        catchM
          (let* m := lm_get_receipt (gr_tenant_id request) (gr_receipt_id request) in
           match m with
           | Some rc =>
               (* Cache for future requests *)
               let* _ := pc_cache_receipt rc in
               retM (Some (mkGetReceiptResponse (Some rc) true
                             (metadata LEDGER_MIRROR 0 false 2)))
           | None => retM None
           end)
          (fun x => if is_SourceUnavailableError x then Some (retM None) else None) in
      match found_rc with
      | Some resp => retM resp
      | None => (* Not found *) not_found
      end
  end.

(** ** Authentication ([auth.py]) *)

(** The part of [config.Settings] that [verify_api_key] reads. *)
Record AuthSettings := mkAuthSettings {
  api_key : string;
  allow_insecure_dev : bool
}.

Definition str_truthy (s : string) : bool :=
  match s with EmptyString => false | _ => true end.

(** [s[n:]] *)
Definition str_drop (n : nat) (s : string) : string :=
  String.substring n (String.length s - n) s.

(** [str.isascii()]. A [str] is a string of code points; the header values
    reach the handler decoded as Latin-1, one character per byte, which is
    what a Rocq [string] holds. *)
Fixpoint str_isascii (s : string) : bool :=
  match s with
  | EmptyString => true
  | String c s' => (Ascii.nat_of_ascii c <? 128)%nat && str_isascii s'
  end.

(** [secrets.compare_digest(a, b)] for two [str]: CPython refuses a string
    with a non-ASCII character with a [TypeError], and compares the others. *)
Definition compare_digest (a b : string) : exn + bool :=
  if str_isascii a && str_isascii b then inr (String.eqb a b)
  else inl (TypeError "comparing strings with non-ASCII characters is not supported").

(** [verify_api_key] *)
Definition verify_api_key (cfg : AuthSettings) (authorization x_api_key : option string)
    : exn + bool :=
  (* Check if auth is required *)
  if allow_insecure_dev cfg then inr true
  else
    (* Extract API key from headers *)
    let key :=
      match authorization with
      | Some a => if str_truthy a && String.prefix "Bearer " a then Some (str_drop 7 a)
                  else if truthy x_api_key then x_api_key else None
      | None => if truthy x_api_key then x_api_key else None
      end in
    match configured key with
    | None =>
        inl (HTTPException 401 (DetailText
          "Missing authorization. Use Authorization: Bearer <key> or X-API-Key header"))
    | Some k =>
        if negb (str_truthy (api_key cfg))
        then inl (HTTPException 503 (DetailText
          "Server misconfigured: authentication not properly initialized"))
        else
          (* Constant-time comparison to prevent timing attacks *)
          match compare_digest k (api_key cfg) with
          | inl x => inl x
          | inr false => inl (HTTPException 401 (DetailText "Invalid API key"))
          | inr true => inr true
          end
    end.

(** [str.lower()] on the ASCII letters. *)
Definition ascii_lower (c : Ascii.ascii) : Ascii.ascii :=
  let n := Ascii.nat_of_ascii c in
  if (65 <=? n)%nat && (n <=? 90)%nat then Ascii.ascii_of_nat (n + 32) else c.

Fixpoint str_lower (s : string) : string :=
  match s with
  | EmptyString => EmptyString
  | String c s' => String (ascii_lower c) (str_lower s')
  end.

(** [s.split(" ", 1)[1]]: the text after the first space ([None] where
    Python raises [IndexError]). *)
Fixpoint after_first_space (s : string) : option string :=
  match s with
  | EmptyString => None
  | String c s' => if Ascii.eqb c (Ascii.ascii_of_nat 32) then Some s' else after_first_space s'
  end.

(** [mcp._extract_auth_token]: [arguments.pop("auth_token", None)] is the
    argument [token]; the headers are read after it. *)
Definition extract_auth_token (token auth_header api_key_header : option string)
    : option string :=
  if truthy token then token
  else
    match auth_header with
    | Some a =>
        if str_truthy a && String.prefix "bearer " (str_lower a)
        then after_first_space a
        else if truthy api_key_header then api_key_header else None
    | None => if truthy api_key_header then api_key_header else None
    end.

(** ** StorageMetadata and inventory.artifacts.depot.interview *)

Record ArtifactPointer := mkArtifactPointer {
  artifact_id : string;
  ap_root_task_id : string;
  mime_type : string;
  size_bytes : Z;
  artifact_role : string;
  staged_at : option datetime;
  location : option string;
  content_hash : option string
}.

Record StagedCountsByRole := mkStagedCountsByRole {
  plan : Z;
  final_output : Z;
  supporting : Z;
  intermediate : Z
}.

(** The JSON body DepotGate answers. *)
Record DepotPayload := mkDepotPayload {
  d_artifacts : option (list ArtifactPointer);
  d_shipment_manifest_pointer : option string;
  d_staged_counts : option StagedCountsByRole
}.

(** The [params] dict of [StorageMetadata.list_artifacts]. *)
Record DepotParams := mkDepotParams {
  dp_tenant_id : string;
  dp_limit : Z;
  dp_root_task_id : option string;
  dp_deliverable_id : option string
}.

(** DepotGate as the storage client sees it: [settings.depotgate_url] and
    the service answering [GET /artifacts/metadata]. *)
Record DepotGate := mkDepotGate {
  depotgate_url : option string;
  depot_list : DepotParams -> http_outcome DepotPayload
}.

(** [StorageMetadata.list_artifacts]: the requests issued and the result. *)
Definition sm_list_artifacts (dg : DepotGate) (tenant_id : string)
    (root_task_id deliverable_id : option string) (limit : Z)
    : list DepotParams * (exn + (list ArtifactPointer * option string * option StagedCountsByRole)) :=
  match configured (depotgate_url dg) with
  | None => ([], inl (SourceUnavailableError "DepotGate URL not configured"))
  | Some _ =>
      let params := mkDepotParams tenant_id limit
                      (if truthy root_task_id then root_task_id else None)
                      (if truthy deliverable_id then deliverable_id else None) in
      ([params],
       let r := depot_list dg params in
       match r with
       | HttpOk data =>
           inr (dict_get (d_artifacts data) [], d_shipment_manifest_pointer data,
                d_staged_counts data)
       | _ => inl (SourceUnavailableError ("DepotGate metadata query failed: " +:+ http_error_str r))
       end)
  end.

Record InventoryArtifactsRequest := mkInventoryArtifactsRequest {
  ia_tenant_id : string;
  ia_root_task_id : option string;
  ia_deliverable_id : option string;
  ia_controls : RequestControls
}.

Record InventoryArtifactsResponse := mkInventoryArtifactsResponse {
  ir_artifact_pointers : list ArtifactPointer;
  ir_shipment_manifest_pointer : option string;
  ir_staged_counts_by_role : option StagedCountsByRole;
  ir_metadata : ResponseMetadata
}.

(** [inventory_artifacts_depot_interview] *)
Definition inventory_artifacts_depot_interview (dg : DepotGate) (s : Settings)
    (request : InventoryArtifactsRequest)
    : list DepotParams * (exn + InventoryArtifactsResponse) :=
  if negb (truthy (ia_root_task_id request)) && negb (truthy (ia_deliverable_id request))
  then ([], inl (HTTPException 400
                   (DetailText "Either root_task_id or deliverable_id is required")))
  else
    let limit := Z.min (limit (ia_controls request)) (max_limit s) in
    let '(calls, r) := sm_list_artifacts dg (ia_tenant_id request) (ia_root_task_id request)
                         (ia_deliverable_id request) limit in
    (calls,
     match r with
     | inr (pointers, manifest_pointer, counts) =>
         inr (mkInventoryArtifactsResponse pointers manifest_pointer counts
                (metadata STORAGE_METADATA 0 (limit <=? Z.of_nat (length pointers))
                   (Z.max 1 (Z.of_nat (length pointers) / 10))))
     | inl (SourceUnavailableError m) => inl (HTTPException 503 (DetailText m))
     | inl x => inl x
     end).

(** * Properties *)

(** ** The request monad *)

Lemma bindM_eq {A B} (m : M A) (k : A -> M B) e w :
  bindM m k e w =
    match m e w with
    | (w', inl x) => (w', inl x)
    | (w', inr a) => k a e w'
    end.
Proof. reflexivity. Qed.

Lemma catchM_eq {A} (m : M A) h e w :
  catchM m h e w =
    match m e w with
    | (w', inl x) => match h x with Some k => k e w' | None => (w', inl x) end
    | r => r
    end.
Proof. reflexivity. Qed.

(** The mirror parameters [LedgerMirror.query_receipts] sends. *)
Definition mirror_params (tenant_id root_task_id : string)
    (phase recipient_ai : option string) (since : option datetime) (limit : Z)
    : MirrorSearchParams :=
  mkMirrorSearchParams tenant_id root_task_id limit
    (if truthy phase then phase else None)
    (if truthy recipient_ai then recipient_ai else None) since.

(** [LedgerMirror.query_receipts] either refuses for want of a URL, touching
    nothing, or issues exactly one search request and reports its outcome;
    every failure is a [SourceUnavailableError]. *)
Lemma lm_query_receipts_cases tenant_id root_task_id phase recipient_ai since limit e w :
  let params := mirror_params tenant_id root_task_id phase recipient_ai since limit in
  (configured (ledger_mirror_url (settings e)) = None /\
   lm_query_receipts tenant_id root_task_id phase recipient_ai since limit e w
     = (w, inl (SourceUnavailableError "Ledger mirror URL not configured")))
  \/
  (exists url, configured (ledger_mirror_url (settings e)) = Some url /\
   lm_query_receipts tenant_id root_task_id phase recipient_ai since limit e w
     = (log_call (GetMirrorSearch (url +:+ "/receipts/search") params) w,
        match mirror_search (remote e) params with
        | HttpOk rs => inr rs
        | r => inl (SourceUnavailableError ("Ledger mirror query failed: " +:+ http_error_str r))
        end)).
Proof.
  intros params. unfold lm_query_receipts.
  rewrite !bindM_eq. cbn.
  destruct (configured (ledger_mirror_url (settings e))) as [url|] eqn:Hu.
  - right. exists url. split; [reflexivity|].
    unfold http_get. rewrite !bindM_eq. cbn.
    unfold params, mirror_params.
    destruct (mirror_search (remote e) _); reflexivity.
  - left. split; reflexivity.
Qed.

Lemma lm_query_receipts_only_unavailable tenant_id root_task_id phase recipient_ai since limit e w w' x :
  lm_query_receipts tenant_id root_task_id phase recipient_ai since limit e w = (w', inl x) ->
  is_SourceUnavailableError x = true.
Proof.
  destruct (lm_query_receipts_cases tenant_id root_task_id phase recipient_ai since limit e w)
    as [[_ H] | [url [_ H]]]; rewrite H.
  - intros Heq. inversion Heq. reflexivity.
  - destruct (mirror_search _ _); intros Heq; inversion Heq; reflexivity.
Qed.

(** The search handler, with the monad run out: read the cache, and for
    [prefer_fresh] and [force_fresh] only, ask the mirror when the cache
    answered nothing. *)
Lemma search_receipts_interview_eq (request : SearchReceiptsRequest) e w :
  let c := sq_controls request in
  let lim := Z.min (limit c) (max_limit (settings e)) in
  let sn := match since c with Some s => s | None => now e - time_window_hours c * hour end in
  let cached := pc_search w (sq_tenant_id request) (sq_root_task_id request)
                  (sq_phase request) (sq_recipient_ai request) (Some sn) lim in
  let cache_answer :=
    (w, inr (mkSearchReceiptsResponse (fst cached)
              (metadata PROJECTION_CACHE (snd cached) (lim <=? Z.of_nat (length (fst cached)))
                 (Z.max 1 (Z.of_nat (length (fst cached)) / 10))))) in
  search_receipts_interview request e w =
    match fst cached, freshness c with
    | [], (PREFER_FRESH | FORCE_FRESH) =>
        match lm_query_receipts (sq_tenant_id request) (sq_root_task_id request)
                (sq_phase request) (sq_recipient_ai request) (Some sn) lim e w with
        | (w', inr rs) =>
            (w', inr (mkSearchReceiptsResponse rs
                        (metadata LEDGER_MIRROR 0 (lim <=? Z.of_nat (length rs))
                           (Z.max 1 (Z.of_nat (length rs) / 10)))))
        | (w', inl x) =>
            if is_SourceUnavailableError x
            then (w', inr (mkSearchReceiptsResponse []
                            (metadata PROJECTION_CACHE (snd cached) (lim <=? 0) 1)))
            else (w', inl x)
        end
    | _, _ => cache_answer
    end.
Proof.
  intros c lim sn cached cache_answer.
  unfold search_receipts_interview, pc_search_receipts.
  rewrite !bindM_eq. cbn -[pc_search lm_query_receipts].
  fold c lim sn cached.
  destruct cached as [hs age]. cbn [fst snd].
  destruct hs as [|h hs]; destruct (freshness c); try reflexivity.
  - rewrite bindM_eq, catchM_eq, bindM_eq.
    destruct (lm_query_receipts _ _ _ _ _ _ e w) as [w' [x|rs]]; [|reflexivity].
    destruct (is_SourceUnavailableError x); reflexivity.
  - rewrite bindM_eq, catchM_eq, bindM_eq.
    destruct (lm_query_receipts _ _ _ _ _ _ e w) as [w' [x|rs]]; [|reflexivity].
    destruct (is_SourceUnavailableError x); reflexivity.
Qed.

(** [ProjectionCache.search_receipts] reports age 0 exactly when it answers
    nothing. *)
Lemma pc_search_age_empty w tenant_id root_task_id phase recipient_ai since limit :
  fst (pc_search w tenant_id root_task_id phase recipient_ai since limit) = [] ->
  snd (pc_search w tenant_id root_task_id phase recipient_ai since limit) = 0.
Proof.
  unfold pc_search. cbv zeta.
  destruct (py_prefix limit _); [reflexivity | discriminate].
Qed.

(** ** Search receipts: fallback policy *)

(** C1 (corrected). With [freshness = cache_ok] the search handler answers
    from the projection cache alone: the response is the cache's result
    attributed to [projection_cache], also when that result is empty, and
    the state is left as it was, so no mirror request is issued and
    nothing is written to the cache. *)
Theorem search_cache_ok_cache_only (request : SearchReceiptsRequest) (e : env) (w : world)
    (Hf : freshness (sq_controls request) = CACHE_OK) :
  let c := sq_controls request in
  let lim := Z.min (limit c) (max_limit (settings e)) in
  let sn := match since c with Some s => s | None => now e - time_window_hours c * hour end in
  let cached := pc_search w (sq_tenant_id request) (sq_root_task_id request)
                  (sq_phase request) (sq_recipient_ai request) (Some sn) lim in
  search_receipts_interview request e w =
    (w, inr (mkSearchReceiptsResponse (fst cached)
              (metadata PROJECTION_CACHE (snd cached) (lim <=? Z.of_nat (length (fst cached)))
                 (Z.max 1 (Z.of_nat (length (fst cached)) / 10))))).
Proof.
  intros c lim sn cached. subst c lim sn cached.
  rewrite search_receipts_interview_eq. cbv zeta.
  rewrite Hf. destruct (fst _); reflexivity.
Qed.

Lemma search_cache_ok_cache_only_witness :
  w_receipt_headers world_with_header !! "acme:root" = Some [header_recent] /\
  search_receipts_interview (search_request CACHE_OK) (mkEnv settings_example t0 remote_up)
    world_with_header
  = (world_with_header,
     inr (mkSearchReceiptsResponse [header_recent] (metadata PROJECTION_CACHE 1000 false 1))) /\
  search_receipts_interview (search_request CACHE_OK) (mkEnv settings_example t0 remote_up)
    world_empty
  = (world_empty, inr (mkSearchReceiptsResponse [] (metadata PROJECTION_CACHE 0 false 1))).
Proof.
  split; [reflexivity|]. split.
  - rewrite (search_cache_ok_cache_only (search_request CACHE_OK)
               (mkEnv settings_example t0 remote_up) world_with_header eq_refl).
    vm_compute. reflexivity.
  - rewrite (search_cache_ok_cache_only (search_request CACHE_OK)
               (mkEnv settings_example t0 remote_up) world_empty eq_refl).
    vm_compute. reflexivity.
Defined.

(** C1 counterexample: a [cache_ok] search with an empty projection cache,
    the mirror configured and holding a receipt, is answered with no
    receipts and attributed to [projection_cache]; the mirror is never asked. *)
Lemma search_cache_ok_mirror_not_consulted :
  ledger_mirror_url settings_example = Some "http://mirror" /\
  mirror_search remote_up
    (mirror_params "acme" "root" None None (Some (t0 - 24 * hour)) 100)
    = HttpOk [header_example] /\
  search_receipts_interview (search_request CACHE_OK) (mkEnv settings_example t0 remote_up)
    world_empty
  = (world_empty, inr (mkSearchReceiptsResponse [] (metadata PROJECTION_CACHE 0 false 1))).
Proof. split; [reflexivity | split; vm_compute; reflexivity]. Qed.

(** C2 (corrected). With [freshness = force_fresh] the search handler still
    reads the projection cache first. A non-empty cache result is returned
    attributed to [projection_cache] without any mirror request. Only an
    empty cache result leads to a mirror query: a mirror answer is returned
    attributed to [ledger_mirror]; a mirror failure (which is always a
    [SourceUnavailableError]) is swallowed and the empty result is returned
    attributed to [projection_cache], not propagated as an error. *)
Theorem search_force_fresh_cache_first (request : SearchReceiptsRequest) (e : env) (w : world)
    (Hf : freshness (sq_controls request) = FORCE_FRESH) :
  let c := sq_controls request in
  let lim := Z.min (limit c) (max_limit (settings e)) in
  let sn := match since c with Some s => s | None => now e - time_window_hours c * hour end in
  let cached := pc_search w (sq_tenant_id request) (sq_root_task_id request)
                  (sq_phase request) (sq_recipient_ai request) (Some sn) lim in
  let mirror := lm_query_receipts (sq_tenant_id request) (sq_root_task_id request)
                  (sq_phase request) (sq_recipient_ai request) (Some sn) lim e w in
  (fst cached <> [] ->
   search_receipts_interview request e w =
     (w, inr (mkSearchReceiptsResponse (fst cached)
               (metadata PROJECTION_CACHE (snd cached) (lim <=? Z.of_nat (length (fst cached)))
                  (Z.max 1 (Z.of_nat (length (fst cached)) / 10)))))) /\
  (fst cached = [] -> forall w' rs, mirror = (w', inr rs) ->
   search_receipts_interview request e w =
     (w', inr (mkSearchReceiptsResponse rs
                (metadata LEDGER_MIRROR 0 (lim <=? Z.of_nat (length rs))
                   (Z.max 1 (Z.of_nat (length rs) / 10)))))) /\
  (fst cached = [] -> forall w' x, mirror = (w', inl x) ->
   is_SourceUnavailableError x = true /\
   search_receipts_interview request e w =
     (w', inr (mkSearchReceiptsResponse [] (metadata PROJECTION_CACHE 0 (lim <=? 0) 1)))).
Proof.
  intros c lim sn cached mirror. subst c lim sn cached mirror.
  rewrite search_receipts_interview_eq. cbv zeta. rewrite Hf.
  split; [|split].
  - destruct (fst _); [contradiction | reflexivity].
  - intros Hnil w' rs Hm. rewrite Hnil, Hm. reflexivity.
  - intros Hnil w' x Hm.
    pose proof (lm_query_receipts_only_unavailable _ _ _ _ _ _ _ _ _ _ Hm) as Hx.
    split; [exact Hx|].
    rewrite Hnil, Hm, Hx, (pc_search_age_empty _ _ _ _ _ _ _ Hnil). reflexivity.
Qed.

Lemma search_force_fresh_cache_first_witness :
  w_receipt_headers world_with_header !! "acme:root" = Some [header_recent] /\
  search_receipts_interview (search_request FORCE_FRESH) (mkEnv settings_example t0 remote_up)
    world_with_header
  = (world_with_header,
     inr (mkSearchReceiptsResponse [header_recent] (metadata PROJECTION_CACHE 1000 false 1)))
  /\
  search_receipts_interview (search_request FORCE_FRESH) (mkEnv settings_example t0 remote_up)
    world_empty
  = (log_call (GetMirrorSearch "http://mirror/receipts/search"
                 (mirror_params "acme" "root" None None (Some (t0 - 24 * hour)) 100)) world_empty,
     inr (mkSearchReceiptsResponse [header_example] (metadata LEDGER_MIRROR 0 false 1)))
  /\
  search_receipts_interview (search_request FORCE_FRESH) (mkEnv settings_example t0 remote_down)
    world_empty
  = (log_call (GetMirrorSearch "http://mirror/receipts/search"
                 (mirror_params "acme" "root" None None (Some (t0 - 24 * hour)) 100)) world_empty,
     inr (mkSearchReceiptsResponse [] (metadata PROJECTION_CACHE 0 false 1))).
Proof.
  split; [reflexivity|]. split; [|split].
  - destruct (search_force_fresh_cache_first (search_request FORCE_FRESH)
                (mkEnv settings_example t0 remote_up) world_with_header eq_refl) as [H1 _].
    rewrite H1; [vm_compute; reflexivity|].
    intro H. vm_compute in H. discriminate H.
  - destruct (search_force_fresh_cache_first (search_request FORCE_FRESH)
                (mkEnv settings_example t0 remote_up) world_empty eq_refl) as [_ [H2 _]].
    rewrite (H2 ltac:(vm_compute; reflexivity)
               (log_call (GetMirrorSearch "http://mirror/receipts/search"
                  (mirror_params "acme" "root" None None (Some (t0 - 24 * hour)) 100)) world_empty)
               [header_example]).
    + vm_compute. reflexivity.
    + vm_compute. reflexivity.
  - destruct (search_force_fresh_cache_first (search_request FORCE_FRESH)
                (mkEnv settings_example t0 remote_down) world_empty eq_refl) as [_ [_ H3]].
    destruct (H3 ltac:(vm_compute; reflexivity)
                (log_call (GetMirrorSearch "http://mirror/receipts/search"
                   (mirror_params "acme" "root" None None (Some (t0 - 24 * hour)) 100)) world_empty)
                (SourceUnavailableError ("Ledger mirror query failed: " +:+ connect_error_str)))
      as [_ H].
    + vm_compute. reflexivity.
    + rewrite H. vm_compute. reflexivity.
Defined.

(** C2 counterexample: a [force_fresh] search is answered from the
    projection cache when the cache holds a matching header (no mirror
    request is issued), and a [force_fresh] search against an unreachable
    mirror returns an empty success attributed to [projection_cache]
    instead of an error. *)
Lemma search_force_fresh_uses_cache :
  search_receipts_interview (search_request FORCE_FRESH) (mkEnv settings_example t0 remote_up)
    world_with_header
  = (world_with_header,
     inr (mkSearchReceiptsResponse [header_recent] (metadata PROJECTION_CACHE 1000 false 1)))
  /\
  search_receipts_interview (search_request FORCE_FRESH) (mkEnv settings_example t0 remote_down)
    world_empty
  = (log_call (GetMirrorSearch "http://mirror/receipts/search"
                 (mirror_params "acme" "root" None None (Some (t0 - 24 * hour)) 100)) world_empty,
     inr (mkSearchReceiptsResponse [] (metadata PROJECTION_CACHE 0 false 1))).
Proof. split; vm_compute; reflexivity. Qed.

(** ** Status: projection cache only *)

Lemma set_status_cache_same w : set_status_cache (w_status_cache w) w = w.
Proof. destruct w; reflexivity. Qed.

Definition status_example : StatusSummary :=
  mkStatusSummary "acme" "root" RESOLVED (Some "r1") None None None None [].

(** A status and a full receipt, both written to the projection cache at [t0]. *)
Definition world_cached_at_t0 : world :=
  mkWorld {[ ("acme", "root") := (status_example, t0) ]} ∅
    {[ "acme:r1" := (receipt_example, t0) ]} ∅ ∅ [].

(** C3 (corrected). When the projection cache has no live status for the
    lineage (no entry, or an entry whose age reached the TTL), the status
    handler answers the [unknown] state attributed to [projection_cache]
    with age 0 and cost 1. It queries no other source (the request log is
    unchanged), derives nothing, and writes nothing back: its only effect
    on the state is the eviction of the expired entry. *)
Theorem status_miss_answers_unknown (request : StatusReceiptsRequest) (e : env) (w : world)
    (root : string)
    (Hroot : configured (py_or (str_root_task_id request) (str_task_id request)) = Some root)
    (Hmiss : forall st t, w_status_cache w !! (str_tenant_id request, root) = Some (st, t) ->
             projection_cache_ttl_seconds (settings e) * 1000 <= cache_age_ms (now e) t) :
  status_receipts_interview request e w =
    (set_status_cache (delete (str_tenant_id request, root) (w_status_cache w)) w,
     inr (mkStatusReceiptsResponse (unknown_status (str_tenant_id request) root)
            (metadata PROJECTION_CACHE 0 false 1))).
Proof.
  unfold status_receipts_interview. rewrite Hroot.
  unfold pc_get_status. rewrite !bindM_eq. cbn -[cache_age_ms].
  destruct (w_status_cache w !! (str_tenant_id request, root)) as [[st t]|] eqn:Hl.
  - specialize (Hmiss st t eq_refl).
    replace (cache_age_ms (now e) t <? projection_cache_ttl_seconds (settings e) * 1000)
      with false by (symmetry; apply Z.ltb_ge; exact Hmiss).
    reflexivity.
  - rewrite delete_id by exact Hl. rewrite set_status_cache_same. reflexivity.
Qed.

Definition status_request_example : StatusReceiptsRequest :=
  mkStatusReceiptsRequest "acme" None (Some "root").

Lemma status_miss_answers_unknown_witness :
  w_status_cache world_cached_at_t0 !! ("acme", "root") = Some (status_example, t0) /\
  projection_cache_ttl_seconds settings_example = 60 /\
  status_receipts_interview status_request_example
    (mkEnv settings_example (t0 + 61000000) remote_up) world_cached_at_t0
  = (set_status_cache ∅ world_cached_at_t0,
     inr (mkStatusReceiptsResponse (unknown_status "acme" "root")
            (metadata PROJECTION_CACHE 0 false 1))) /\
  status_receipts_interview status_request_example (mkEnv settings_example t0 remote_up)
    world_empty
  = (world_empty,
     inr (mkStatusReceiptsResponse (unknown_status "acme" "root")
            (metadata PROJECTION_CACHE 0 false 1))).
Proof.
  split; [reflexivity|]. split; [reflexivity|]. split.
  - rewrite (status_miss_answers_unknown status_request_example
               (mkEnv settings_example (t0 + 61000000) remote_up) world_cached_at_t0 "root" eq_refl).
    + vm_compute. reflexivity.
    + intros st t H. vm_compute in H. injection H as _ Ht. subst t.
      vm_compute. discriminate.
  - rewrite (status_miss_answers_unknown status_request_example
               (mkEnv settings_example t0 remote_up) world_empty "root" eq_refl).
    + vm_compute. reflexivity.
    + intros st t H. vm_compute in H. discriminate H.
Defined.

(** C3 counterexample: with an empty projection cache and a reachable
    mirror holding receipts of the lineage, the status handler answers
    [unknown] attributed to [projection_cache], issues no mirror request and
    caches nothing. *)
Lemma status_miss_no_mirror_query :
  mirror_search remote_up
    (mirror_params "acme" "root" None None (Some (t0 - 24 * hour)) 100)
    = HttpOk [header_example] /\
  status_receipts_interview status_request_example (mkEnv settings_example t0 remote_up)
    world_empty
  = (world_empty,
     inr (mkStatusReceiptsResponse (unknown_status "acme" "root")
            (metadata PROJECTION_CACHE 0 false 1))).
Proof. split; vm_compute; reflexivity. Qed.

(** ** Projection cache TTL *)

(** X24. [ProjectionCache.get_status] computes the entry's age
    first: an entry younger than the TTL is a hit reported with its age,
    an entry whose age is at or above the TTL is a miss and is evicted.
    [ProjectionCache.search_receipts] stores no timestamp per entry: its
    answer depends neither on the clock nor on the TTL, and it evicts
    nothing. *)
Theorem projection_cache_ttl (e : env) (w : world) (tenant_id root_task_id : string)
    (st : StatusSummary) (cached_at : datetime)
    (Hl : w_status_cache w !! (tenant_id, root_task_id) = Some (st, cached_at)) :
  (cache_age_ms (now e) cached_at < projection_cache_ttl_seconds (settings e) * 1000 ->
   pc_get_status tenant_id root_task_id e w
     = (w, inr (Some st, cache_age_ms (now e) cached_at))) /\
  (projection_cache_ttl_seconds (settings e) * 1000 <= cache_age_ms (now e) cached_at ->
   pc_get_status tenant_id root_task_id e w
     = (set_status_cache (delete (tenant_id, root_task_id) (w_status_cache w)) w,
        inr (None, 0))) /\
  (forall phase recipient_ai since limit,
   pc_search_receipts tenant_id root_task_id phase recipient_ai since limit e w
     = (w, inr (pc_search w tenant_id root_task_id phase recipient_ai since limit))).
Proof.
  unfold pc_get_status. rewrite !bindM_eq. cbn -[cache_age_ms]. rewrite Hl.
  split; [|split].
  - intros Hlt. apply Z.ltb_lt in Hlt. rewrite Hlt. reflexivity.
  - intros Hge. apply Z.ltb_ge in Hge. rewrite Hge. reflexivity.
  - intros. reflexivity.
Qed.

(** The example of the spec: TTL 60 s, a status written at [t0] is a hit of
    age 59000 ms at [t0] + 59 s and an evicted miss at [t0] + 61 s. *)
Lemma projection_cache_ttl_witness :
  pc_get_status "acme" "root" (mkEnv settings_example (t0 + 59000000) remote_up)
    world_cached_at_t0
    = (world_cached_at_t0, inr (Some status_example, 59000)) /\
  pc_get_status "acme" "root" (mkEnv settings_example (t0 + 61000000) remote_up)
    world_cached_at_t0
    = (set_status_cache ∅ world_cached_at_t0, inr (None, 0)).
Proof.
  split.
  - destruct (projection_cache_ttl (mkEnv settings_example (t0 + 59000000) remote_up)
                world_cached_at_t0 "acme" "root" status_example t0 eq_refl) as [H _].
    rewrite H; vm_compute; reflexivity.
  - destruct (projection_cache_ttl (mkEnv settings_example (t0 + 61000000) remote_up)
                world_cached_at_t0 "acme" "root" status_example t0 eq_refl) as [_ [H _]].
    rewrite H; [vm_compute; reflexivity | vm_compute; discriminate].
Defined.

(** C4 (code bug). [ProjectionCache.get_receipt] computes the entry's age
    but, unlike its sibling [get_status], never compares it with the TTL and
    never evicts. With TTL 60 s, a full receipt written at [t0] and read at
    [t0] + 61 s is still returned, with age 61000 ms, and stays in the cache;
    [get.receipt.interview] answers it as found, from [projection_cache].
    A status written at the same moment and read at [t0] + 61 s is an
    evicted miss. *)
Lemma get_receipt_ignores_ttl :
  projection_cache_ttl_seconds settings_example = 60 /\
  pc_get_receipt "acme" "r1" (mkEnv settings_example (t0 + 61000000) remote_up)
    world_cached_at_t0
    = (world_cached_at_t0, inr (Some receipt_example, 61000)) /\
  get_receipt_interview (mkGetReceiptRequest "acme" "r1")
    (mkEnv settings_example (t0 + 61000000) remote_up) world_cached_at_t0
    = (world_cached_at_t0,
       inr (mkGetReceiptResponse (Some receipt_example) true
              (metadata PROJECTION_CACHE 61000 false 1))) /\
  pc_get_status "acme" "root" (mkEnv settings_example (t0 + 61000000) remote_up)
    world_cached_at_t0
    = (set_status_cache ∅ world_cached_at_t0, inr (None, 0)).
Proof. split; [reflexivity|]. split; [|split]; vm_compute; reflexivity. Qed.

(** ** Search bounds *)

Lemma log_call_calls o w : w_calls (log_call o w) = w_calls w ++ [o].
Proof. reflexivity. Qed.

(** The search handler issues at most one outbound request, a mirror search
    whose [since] and [limit] are the ones the handler computed. *)
Lemma search_receipts_calls (request : SearchReceiptsRequest) e w w' r :
  let c := sq_controls request in
  let lim := Z.min (limit c) (max_limit (settings e)) in
  let sn := match since c with Some s => s | None => now e - time_window_hours c * hour end in
  search_receipts_interview request e w = (w', r) ->
  w_calls w' = w_calls w \/
  exists url, w_calls w' = w_calls w ++
    [GetMirrorSearch url (mirror_params (sq_tenant_id request) (sq_root_task_id request)
                            (sq_phase request) (sq_recipient_ai request) (Some sn) lim)].
Proof.
  intros c lim sn. subst c lim sn.
  rewrite search_receipts_interview_eq. cbv zeta.
  set (sn := match since (sq_controls request) with Some s => s | None => _ end).
  set (lim := Z.min _ _).
  destruct (fst (pc_search _ _ _ _ _ _ _)) as [|h hs];
    [|intros Heq; inversion Heq; left; reflexivity].
  destruct (freshness (sq_controls request));
    [intros Heq; inversion Heq; left; reflexivity| |];
  destruct (lm_query_receipts_cases (sq_tenant_id request) (sq_root_task_id request)
              (sq_phase request) (sq_recipient_ai request) (Some sn) lim e w)
    as [[_ Hm] | [url [_ Hm]]]; rewrite Hm; cbn -[log_call];
    [ intros Heq; inversion Heq; left; reflexivity
    | destruct (mirror_search _ _); intros Heq; inversion Heq; right; exists (url +:+ "/receipts/search"); reflexivity
    | intros Heq; inversion Heq; left; reflexivity
    | destruct (mirror_search _ _); intros Heq; inversion Heq; right; exists (url +:+ "/receipts/search"); reflexivity ].
Qed.

(** A [force_fresh] search for lineage ("acme", "root") asking for receipts
    since the epoch. *)
Definition search_request_since_epoch : SearchReceiptsRequest :=
  mkSearchReceiptsRequest "acme" "root" None None (mkRequestControls 100 (Some 0) 24 false FORCE_FRESH).

(** A search for lineage ("acme", "root") with an explicit [since]. *)
Definition search_request_since (f : Freshness) (s : datetime) : SearchReceiptsRequest :=
  mkSearchReceiptsRequest "acme" "root" None None (mkRequestControls 100 (Some s) 24 false f).

(** C5 (corrected). An explicit [since] is used as given, with no clamping
    against [max_time_window_hours]: the search handler runs the
    projection-cache filter with exactly that [since] and, when it asks the
    ledger mirror, sends exactly that [since] too ([run s] below). Only when
    [since] is absent is it derived, as [now - time_window_hours]; and
    validation admits only a [time_window_hours] in [1, 168]. *)
Theorem search_explicit_since_unclamped (request : SearchReceiptsRequest) (e : env) (w : world) :
  let c := sq_controls request in
  let lim := Z.min (limit c) (max_limit (settings e)) in
  let run (sn : datetime) :=
    let cached := pc_search w (sq_tenant_id request) (sq_root_task_id request)
                    (sq_phase request) (sq_recipient_ai request) (Some sn) lim in
    match fst cached, freshness c with
    | [], (PREFER_FRESH | FORCE_FRESH) =>
        match lm_query_receipts (sq_tenant_id request) (sq_root_task_id request)
                (sq_phase request) (sq_recipient_ai request) (Some sn) lim e w with
        | (w', inr rs) =>
            (w', inr (mkSearchReceiptsResponse rs
                        (metadata LEDGER_MIRROR 0 (lim <=? Z.of_nat (length rs))
                           (Z.max 1 (Z.of_nat (length rs) / 10)))))
        | (w', inl x) =>
            if is_SourceUnavailableError x
            then (w', inr (mkSearchReceiptsResponse []
                            (metadata PROJECTION_CACHE (snd cached) (lim <=? 0) 1)))
            else (w', inl x)
        end
    | _, _ =>
        (w, inr (mkSearchReceiptsResponse (fst cached)
                  (metadata PROJECTION_CACHE (snd cached)
                     (lim <=? Z.of_nat (length (fst cached)))
                     (Z.max 1 (Z.of_nat (length (fst cached)) / 10)))))
    end in
  (forall s, since c = Some s -> search_receipts_interview request e w = run s) /\
  (since c = None ->
   search_receipts_interview request e w = run (now e - time_window_hours c * hour)) /\
  (forall l s tw b f c', validate_RequestControls l s tw b f = Some c' ->
   1 <= time_window_hours c' <= 168).
Proof.
  intros c lim run. subst c lim run.
  split; [|split].
  - intros s Hs. rewrite search_receipts_interview_eq. cbv zeta. rewrite Hs. reflexivity.
  - intros Hs. rewrite search_receipts_interview_eq. cbv zeta. rewrite Hs. reflexivity.
  - intros l s tw b f c'. unfold validate_RequestControls.
    destruct (1 <=? l); destruct (l <=? 200);
      destruct (1 <=? tw) eqn:H1; destruct (tw <=? 168) eqn:H2; cbn; try discriminate.
    intros Hc. injection Hc as <-. cbn.
    apply Z.leb_le in H1. apply Z.leb_le in H2. lia.
Qed.

(** The cache filter keeps [header_recent] (created at [t0] - 1 s) for
    [since] = the epoch and drops it for [since] = [t0]; the mirror is asked
    with [since] = the epoch; without [since] the window of 24 h keeps it. *)
Lemma search_explicit_since_unclamped_witness :
  search_receipts_interview (search_request_since CACHE_OK t0)
    (mkEnv settings_example t0 remote_up) world_with_header
    = (world_with_header, inr (mkSearchReceiptsResponse [] (metadata PROJECTION_CACHE 0 false 1))) /\
  search_receipts_interview (search_request_since CACHE_OK 0)
    (mkEnv settings_example t0 remote_up) world_with_header
    = (world_with_header,
       inr (mkSearchReceiptsResponse [header_recent] (metadata PROJECTION_CACHE 1000 false 1))) /\
  search_receipts_interview search_request_since_epoch
    (mkEnv settings_example t0 remote_up) world_empty
    = (log_call (GetMirrorSearch "http://mirror/receipts/search"
                   (mirror_params "acme" "root" None None (Some 0) 100)) world_empty,
       inr (mkSearchReceiptsResponse [header_example] (metadata LEDGER_MIRROR 0 false 1))) /\
  search_receipts_interview (search_request CACHE_OK)
    (mkEnv settings_example t0 remote_up) world_with_header
    = (world_with_header,
       inr (mkSearchReceiptsResponse [header_recent] (metadata PROJECTION_CACHE 1000 false 1))) /\
  1 <= time_window_hours (mkRequestControls 100 None 24 false CACHE_OK) <= 168.
Proof.
  split; [|split; [|split; [|split]]].
  - rewrite (proj1 (search_explicit_since_unclamped (search_request_since CACHE_OK t0)
                      (mkEnv settings_example t0 remote_up) world_with_header) t0 eq_refl).
    vm_compute. reflexivity.
  - rewrite (proj1 (search_explicit_since_unclamped (search_request_since CACHE_OK 0)
                      (mkEnv settings_example t0 remote_up) world_with_header) 0 eq_refl).
    vm_compute. reflexivity.
  - rewrite (proj1 (search_explicit_since_unclamped search_request_since_epoch
                      (mkEnv settings_example t0 remote_up) world_empty) 0 eq_refl).
    vm_compute. reflexivity.
  - rewrite (proj1 (proj2 (search_explicit_since_unclamped (search_request CACHE_OK)
                             (mkEnv settings_example t0 remote_up) world_with_header)) eq_refl).
    vm_compute. reflexivity.
  - exact (proj2 (proj2 (search_explicit_since_unclamped (search_request CACHE_OK)
             (mkEnv settings_example t0 remote_up) world_with_header))
             100 None 24 false CACHE_OK _ eq_refl).
Defined.

(** C5 counterexample: with [max_time_window_hours = 168] at [t0], a
    [force_fresh] search asking for receipts since the epoch (far older than
    [t0] - 168 h) queries the mirror with [since] = the epoch. *)
Lemma search_since_not_clamped :
  max_time_window_hours settings_example = 168 /\
  0 < t0 - 168 * hour /\
  w_calls (fst (search_receipts_interview search_request_since_epoch
                  (mkEnv settings_example t0 remote_up) world_empty))
    = [GetMirrorSearch "http://mirror/receipts/search"
         (mirror_params "acme" "root" None None (Some 0) 100)].
Proof. split; [reflexivity | split; vm_compute; reflexivity]. Qed.

(** C6 (corrected). [RequestControls] validation admits only limits in
    [1, 200], so a larger request (such as 9999) is rejected before the
    handler runs. For a validated limit [L] the search handler applies
    [min(L, max_limit)]: every mirror query it issues carries that limit,
    and when [max_limit >= 1] this equals [max(1, min(L, max_limit))]. *)
Theorem search_effective_limit :
  (forall l s tw b f c, validate_RequestControls l s tw b f = Some c ->
     1 <= limit c <= 200 /\ c = mkRequestControls l s tw b f) /\
  (forall (request : SearchReceiptsRequest) e w w' r,
     search_receipts_interview request e w = (w', r) ->
     w_calls w' = w_calls w \/
     exists url p, w_calls w' = w_calls w ++ [GetMirrorSearch url p] /\
       ms_limit p = Z.min (limit (sq_controls request)) (max_limit (settings e))) /\
  (forall (request : SearchReceiptsRequest) e,
     1 <= limit (sq_controls request) -> 1 <= max_limit (settings e) ->
     Z.max 1 (Z.min (limit (sq_controls request)) (max_limit (settings e)))
       = Z.min (limit (sq_controls request)) (max_limit (settings e))).
Proof.
  split; [|split].
  - intros l s tw b f c. unfold validate_RequestControls.
    destruct (1 <=? l) eqn:H1; destruct (l <=? 200) eqn:H2;
      destruct (1 <=? tw); destruct (tw <=? 168); cbn; try discriminate.
    intros Hc. injection Hc as <-. cbn.
    apply Z.leb_le in H1. apply Z.leb_le in H2. split; [lia | reflexivity].
  - intros request e w w' r Hrun.
    destruct (search_receipts_calls request e w w' r Hrun) as [H | [url H]].
    + left. exact H.
    + right. exists url. eexists. split; [exact H | reflexivity].
  - intros request e H1 H2. lia.
Qed.

Lemma search_effective_limit_witness :
  validate_RequestControls 200 None 24 false FORCE_FRESH
    = Some (mkRequestControls 200 None 24 false FORCE_FRESH) /\
  1 <= limit (mkRequestControls 200 None 24 false FORCE_FRESH) <= 200 /\
  Z.max 1 (Z.min (limit (sq_controls (search_request FORCE_FRESH))) (max_limit settings_example))
    = Z.min (limit (sq_controls (search_request FORCE_FRESH))) (max_limit settings_example).
Proof.
  destruct search_effective_limit as [Hv [_ Hm]].
  split; [reflexivity|]. split.
  - apply (proj1 (Hv 200 None 24 false FORCE_FRESH _ eq_refl)).
  - apply (Hm (search_request FORCE_FRESH) (mkEnv settings_example t0 remote_up));
      vm_compute; discriminate.
Defined.

(** C6 counterexample: a request limit of 9999 never reaches the handler
    (validation rejects it), and with [max_limit = 0] a search asking for 100
    receipts queries the mirror with limit 0, not 1. *)
Lemma search_limit_counterexample :
  validate_RequestControls 9999 None 24 false CACHE_OK = None /\
  w_calls (fst (search_receipts_interview (search_request FORCE_FRESH)
                  (mkEnv (mkSettings (Some "http://mirror") None false None 60 500 5 100 0 24 168 60)
                     t0 remote_up) world_empty))
    = [GetMirrorSearch "http://mirror/receipts/search"
         (mirror_params "acme" "root" None None (Some (t0 - 24 * hour)) 0)].
Proof. split; vm_compute; reflexivity. Qed.

(** ** Global ledger gate *)

(** The defaults with the global-ledger endpoint configured but the opt-in
    flag left off. *)
Definition settings_global_off : Settings := settings_example.

(** C7. While [allow_global_ledger] is false, the global-ledger endpoint
    fails with HTTP 403 carrying [GLOBAL_LEDGER_DISABLED] (never the 503 of
    an unavailable source), and the client itself raises
    [GlobalLedgerDisabledError]; neither issues a request nor changes any
    state, whatever the configured URL and whatever the remote would
    answer. *)
Theorem global_ledger_disabled_gate (tenant_id root_task_id : string) (e : env) (w : world)
    (Hoff : allow_global_ledger (settings e) = false) :
  global_ledger_query tenant_id root_task_id e w
    = (w, inl (HTTPException 403 (global_ledger_disabled_detail
        (Some "Set INTERVIEW_ALLOW_GLOBAL_LEDGER=true to enable direct ledger queries")))) /\
  gl_query_receipts tenant_id root_task_id e w
    = (w, inl (GlobalLedgerDisabledError
        "Global ledger access is disabled. Set INTERVIEW_ALLOW_GLOBAL_LEDGER=true to enable.")).
Proof.
  unfold global_ledger_query, gl_query_receipts, gl_check_access.
  rewrite !bindM_eq. cbn. rewrite Hoff. split; reflexivity.
Qed.

Lemma global_ledger_disabled_gate_witness :
  global_ledger_url settings_global_off = Some "http://global" /\
  global_search remote_up "acme" "root" = HttpOk [header_example] /\
  global_ledger_query "acme" "root" (mkEnv settings_global_off t0 remote_up) world_empty
    = (world_empty, inl (HTTPException 403 (global_ledger_disabled_detail
        (Some "Set INTERVIEW_ALLOW_GLOBAL_LEDGER=true to enable direct ledger queries")))).
Proof.
  split; [reflexivity | split; [reflexivity|]].
  exact (proj1 (global_ledger_disabled_gate "acme" "root"
                  (mkEnv settings_global_off t0 remote_up) world_empty eq_refl)).
Defined.

(** ** Component poller: result cache before rate limit *)

Lemma cp_get_cached_hit (cache_key : string) e w data cached_at :
  w_poll_cache w !! cache_key = Some (data, cached_at) ->
  cache_age_ms (now e) cached_at < component_poll_cache_seconds (settings e) * 1000 ->
  cp_get_cached cache_key e w = (w, inr (Some (data, cache_age_ms (now e) cached_at))).
Proof.
  intros Hl Hfresh. unfold cp_get_cached. rewrite !bindM_eq. cbn -[cache_age_ms].
  rewrite Hl. apply Z.ltb_lt in Hfresh. rewrite Hfresh. reflexivity.
Qed.

(** C8. When the poller's result cache holds a fresh entry for the request's
    key (component, operation, tenant and request shape), a health or queue
    poll returns the cached payload with its age and leaves the whole state
    as it was: no outbound request is logged and the rate limiter is
    untouched. *)
Theorem poll_cache_hit_frame (e : env) (w : world) (tenant_id : string) :
  (forall verbose data cached_at,
     w_poll_cache w !! health_cache_key tenant_id verbose = Some (data, cached_at) ->
     cache_age_ms (now e) cached_at < component_poll_cache_seconds (settings e) * 1000 ->
     cp_poll_asyncgate_health tenant_id verbose e w
       = (w, inr (data, cache_age_ms (now e) cached_at))) /\
  (forall queue_id limit include_examples data cached_at,
     w_poll_cache w !! queue_cache_key tenant_id queue_id limit include_examples
       = Some (data, cached_at) ->
     cache_age_ms (now e) cached_at < component_poll_cache_seconds (settings e) * 1000 ->
     cp_poll_asyncgate_queue tenant_id queue_id limit include_examples e w
       = (w, inr (data, cache_age_ms (now e) cached_at))).
Proof.
  split.
  - intros verbose data cached_at Hl Hfresh.
    unfold cp_poll_asyncgate_health. rewrite bindM_eq.
    rewrite (cp_get_cached_hit _ e w data cached_at Hl Hfresh). reflexivity.
  - intros queue_id limit include_examples data cached_at Hl Hfresh.
    unfold cp_poll_asyncgate_queue. rewrite bindM_eq.
    rewrite (cp_get_cached_hit _ e w data cached_at Hl Hfresh). reflexivity.
Qed.

(** Sixty AsyncGate calls recorded in the last minute before [t0]. *)
Definition full_window : list datetime :=
  map (fun i => t0 - Z.of_nat i * 100000) (seq 0 60).

(** A health payload cached at [t0] for tenant "acme" (non-verbose) while the
    AsyncGate rate window is full. *)
Definition world_health_cached : world :=
  mkWorld ∅ ∅ ∅ {[ health_cache_key "acme" false := (payload_example, t0) ]}
    {[ "asyncgate" := full_window ]} [].

(** Read 1 s and 1.001 s after it was cached, the entry is returned with
    age 1000 ms both times: [1.001 * 1000] is [1000.9999999999999] in
    binary64, which [int] truncates. *)
Lemma poll_cache_hit_frame_witness :
  cp_poll_asyncgate_health "acme" false (mkEnv settings_example (t0 + 1000000) remote_up)
    world_health_cached
  = (world_health_cached, inr (payload_example, 1000)) /\
  cp_poll_asyncgate_health "acme" false (mkEnv settings_example (t0 + 1001000) remote_up)
    world_health_cached
  = (world_health_cached, inr (payload_example, 1000)).
Proof.
  split.
  - apply (proj1 (poll_cache_hit_frame (mkEnv settings_example (t0 + 1000000) remote_up)
                    world_health_cached "acme") false payload_example t0).
    + vm_compute. reflexivity.
    + vm_compute. reflexivity.
  - apply (proj1 (poll_cache_hit_frame (mkEnv settings_example (t0 + 1001000) remote_up)
                    world_health_cached "acme") false payload_example t0).
    + vm_compute. reflexivity.
    + vm_compute. reflexivity.
Defined.

(** ** Component poller: sliding-window rate limit *)

Lemma cp_get_cached_miss (cache_key : string) e w :
  (forall d t, w_poll_cache w !! cache_key = Some (d, t) ->
     component_poll_cache_seconds (settings e) * 1000 <= cache_age_ms (now e) t) ->
  exists w1, cp_get_cached cache_key e w = (w1, inr None) /\
    w_calls w1 = w_calls w /\ w_rate_limiter w1 = w_rate_limiter w.
Proof.
  intros Hno. unfold cp_get_cached. rewrite !bindM_eq. cbn -[cache_age_ms].
  destruct (w_poll_cache w !! cache_key) as [[d t]|] eqn:Hl.
  - specialize (Hno d t eq_refl). apply Z.ltb_ge in Hno. rewrite Hno.
    eexists. split; [reflexivity | split; reflexivity].
  - exists w. split; [reflexivity | split; reflexivity].
Qed.

Lemma cp_check_rate_limit_full (component : string) e w :
  let ts := recent_calls (now e) (dict_get (w_rate_limiter w !! component) []) in
  component_poll_rate_limit_per_minute (settings e) <= Z.of_nat (length ts) ->
  cp_check_rate_limit component e w
    = (set_rate_limiter (<[component := ts]> (w_rate_limiter w)) w, inr false).
Proof.
  intros ts Hfull. unfold cp_check_rate_limit. rewrite !bindM_eq. cbn -[recent_calls].
  fold ts. apply Z.leb_le in Hfull. rewrite Hfull. reflexivity.
Qed.

(** The rejection of a poll by the rate limiter, as seen by the poll and by
    its endpoint. *)
Definition rate_limited_by (w w' : world) (now : datetime) (poll : exn + AsyncGatePayload * Z) :=
  poll = inl (DataSourceError "Rate limit exceeded for AsyncGate polls") /\
  w_calls w' = w_calls w /\
  w_rate_limiter w' !! "asyncgate"
    = Some (recent_calls now (dict_get (w_rate_limiter w !! "asyncgate") [])).

(** C9 (corrected). The rate limiter is consulted only after the result
    cache and after the AsyncGate URL check. When no fresh cache entry
    exists for the poll's key, the AsyncGate URL is configured, and the
    number of AsyncGate calls recorded in the trailing 60 s is at or above
    the per-minute ceiling, a health or queue poll raises the plain
    [DataSourceError] "Rate limit exceeded" (not a
    [SourceUnavailableError]): no request is issued, the AsyncGate window
    keeps only its pruned timestamps with no new one, and the endpoint
    answers HTTP 429 instead of a fallback response. *)
Theorem poll_rate_limit_rejects (e : env) (w : world) (tenant_id url : string)
    (Hurl : configured (asyncgate_url (settings e)) = Some url)
    (Hfull : component_poll_rate_limit_per_minute (settings e)
             <= Z.of_nat (length (recent_calls (now e)
                                    (dict_get (w_rate_limiter w !! "asyncgate") [])))) :
  (forall verbose,
     (forall d t, w_poll_cache w !! health_cache_key tenant_id verbose = Some (d, t) ->
        component_poll_cache_seconds (settings e) * 1000 <= cache_age_ms (now e) t) ->
     exists w',
       cp_poll_asyncgate_health tenant_id verbose e w
         = (w', inl (DataSourceError "Rate limit exceeded for AsyncGate polls")) /\
       rate_limited_by w w' (now e) (snd (cp_poll_asyncgate_health tenant_id verbose e w)) /\
       health_async_interview (mkHealthAsyncRequest tenant_id verbose) e w
         = (w', inl (HTTPException 429 (DetailText "Rate limit exceeded for AsyncGate polls")))) /\
  (forall queue_id limit include_examples,
     (forall d t, w_poll_cache w !! queue_cache_key tenant_id queue_id limit include_examples
                    = Some (d, t) ->
        component_poll_cache_seconds (settings e) * 1000 <= cache_age_ms (now e) t) ->
     exists w',
       cp_poll_asyncgate_queue tenant_id queue_id limit include_examples e w
         = (w', inl (DataSourceError "Rate limit exceeded for AsyncGate polls")) /\
       rate_limited_by w w' (now e)
         (snd (cp_poll_asyncgate_queue tenant_id queue_id limit include_examples e w))).
Proof.
  split.
  - intros verbose Hno.
    destruct (cp_get_cached_miss _ e w Hno) as [w1 [Hget [Hc Hr]]].
    assert (Hpoll : cp_poll_asyncgate_health tenant_id verbose e w
      = (set_rate_limiter (<[ "asyncgate" := recent_calls (now e)
            (dict_get (w_rate_limiter w !! "asyncgate") []) ]> (w_rate_limiter w1)) w1,
         inl (DataSourceError "Rate limit exceeded for AsyncGate polls"))).
    { unfold cp_poll_asyncgate_health. rewrite bindM_eq, Hget. cbn -[cp_check_rate_limit].
      rewrite Hurl, bindM_eq.
      rewrite cp_check_rate_limit_full by (rewrite Hr; exact Hfull).
      rewrite Hr. reflexivity. }
    eexists. split; [exact Hpoll|]. split.
    + rewrite Hpoll. split; [reflexivity|]. split; [exact Hc|].
      cbn. apply lookup_insert_eq.
    + unfold health_async_interview. rewrite catchM_eq, bindM_eq. cbn [ha_tenant_id ha_verbose].
      rewrite Hpoll. reflexivity.
  - intros queue_id limit include_examples Hno.
    destruct (cp_get_cached_miss _ e w Hno) as [w1 [Hget [Hc Hr]]].
    assert (Hpoll : cp_poll_asyncgate_queue tenant_id queue_id limit include_examples e w
      = (set_rate_limiter (<[ "asyncgate" := recent_calls (now e)
            (dict_get (w_rate_limiter w !! "asyncgate") []) ]> (w_rate_limiter w1)) w1,
         inl (DataSourceError "Rate limit exceeded for AsyncGate polls"))).
    { unfold cp_poll_asyncgate_queue. rewrite bindM_eq, Hget. cbn -[cp_check_rate_limit].
      rewrite Hurl, bindM_eq.
      rewrite cp_check_rate_limit_full by (rewrite Hr; exact Hfull).
      rewrite Hr. reflexivity. }
    eexists. split; [exact Hpoll|].
    rewrite Hpoll. split; [reflexivity|]. split; [exact Hc|].
    cbn. apply lookup_insert_eq.
Qed.

(** The AsyncGate rate window full at [t0], nothing cached. *)
Definition world_rate_full : world :=
  mkWorld ∅ ∅ ∅ ∅ {[ "asyncgate" := full_window ]} [].

Lemma poll_rate_limit_rejects_witness :
  exists w',
    health_async_interview (mkHealthAsyncRequest "acme" false)
      (mkEnv settings_example t0 remote_up) world_rate_full
      = (w', inl (HTTPException 429 (DetailText "Rate limit exceeded for AsyncGate polls"))) /\
    w_calls w' = [] /\
    w_rate_limiter w' !! "asyncgate" = Some full_window.
Proof.
  destruct (proj1 (poll_rate_limit_rejects (mkEnv settings_example t0 remote_up) world_rate_full
                     "acme" "http://asyncgate" eq_refl ltac:(vm_compute; discriminate)) false)
    as [w' [_ [[_ [Hc Hr]] He]]].
  - intros d t H. vm_compute in H. discriminate H.
  - exists w'. split; [exact He|]. split; [exact Hc|].
    rewrite Hr. vm_compute. reflexivity.
Defined.

(** C9 counterexample: with the AsyncGate rate window full, a health poll
    is not rejected by the rate limiter when the AsyncGate URL is not
    configured (the endpoint degrades to [reachable = false]), nor when a
    fresh cached result exists (the cached payload is served). *)
Lemma poll_full_window_not_rejected :
  Z.of_nat (length full_window) = 60 /\
  health_async_interview (mkHealthAsyncRequest "acme" false)
    (mkEnv (mkSettings (Some "http://mirror") None false None 60 500 5 100 200 24 168 60)
       t0 remote_up) world_rate_full
    = (world_rate_full,
       inr (mkHealthAsyncResponse "asyncgate" false None None None None
              (metadata COMPONENT_POLL 0 false 1))) /\
  health_async_interview (mkHealthAsyncRequest "acme" false)
    (mkEnv settings_example (t0 + 1000000) remote_up) world_health_cached
    = (world_health_cached,
       inr (mkHealthAsyncResponse "asyncgate" true (Some "1.0") (Some 10) None None
              (metadata COMPONENT_POLL 1000 false 5))).
Proof. split; [reflexivity | split; vm_compute; reflexivity]. Qed.

(** ** Queue diagnostics: item headers *)

Lemma length_py_prefix {A} (n : Z) (xs : list A) :
  0 <= n -> Z.of_nat (length (py_prefix n xs)) <= n.
Proof.
  intros Hn. unfold py_prefix. apply Z.leb_le in Hn as Hb. rewrite Hb.
  rewrite length_take. lia.
Qed.

(** C10. For every validated queue request (limit at least 1) that the
    endpoint answers, whatever the poll returned: with
    [include_examples = false] the items list is empty and [truncated] is
    false; in every case at most [min(limit, 50)] item headers are returned. *)
Theorem queue_items_only_with_examples (request : QueueAsyncRequest) (e : env) (w w' : world)
    (resp : QueueAsyncResponse)
    (Hlim : 1 <= qa_limit request)
    (Hrun : queue_async_interview request e w = (w', inr resp)) :
  (qa_include_examples request = false ->
     items resp = [] /\ truncated (qr_metadata resp) = false) /\
  Z.of_nat (length (items resp)) <= Z.min (qa_limit request) 50.
Proof.
  unfold queue_async_interview in Hrun. rewrite catchM_eq, bindM_eq in Hrun.
  destruct (cp_poll_asyncgate_queue _ _ _ _ e w) as [w1 [x | [data age_ms]]].
  - destruct (is_SourceUnavailableError x).
    + cbn in Hrun. injection Hrun as _ <-. cbn. split; [auto | lia].
    + destruct (is_DataSourceError x); cbn in Hrun; discriminate Hrun.
  - cbn in Hrun. injection Hrun as _ <-. cbn.
    destruct (qa_include_examples request) eqn:Hinc.
    + split; [discriminate|].
      destruct (p_items data) as [its|]; cbn; [apply length_py_prefix; lia | lia].
    + split; [|cbn; lia].
      split; [reflexivity|]. apply Z.leb_gt. cbn. lia.
Qed.

Lemma queue_items_only_with_examples_witness :
  p_items payload_example <> None /\
  match snd (queue_async_interview (mkQueueAsyncRequest "acme" None 20 false)
               (mkEnv settings_example t0 remote_up) world_empty) with
  | inr resp => items resp = [] /\ truncated (qr_metadata resp) = false
  | inl _ => False
  end.
Proof.
  split; [discriminate|].
  destruct (queue_async_interview (mkQueueAsyncRequest "acme" None 20 false)
              (mkEnv settings_example t0 remote_up) world_empty) as [w' [x | resp]] eqn:Hrun.
  - vm_compute in Hrun. discriminate Hrun.
  - exact (proj1 (queue_items_only_with_examples (mkQueueAsyncRequest "acme" None 20 false)
                    (mkEnv settings_example t0 remote_up) world_empty w' resp
                    ltac:(vm_compute; discriminate) Hrun) eq_refl).
Defined.

(** * Further properties of the handlers and their sources *)

(** ** Authentication *)

Lemma substring_0_length (s : string) : String.substring 0 (String.length s) s = s.
Proof. induction s as [|c s IH]; cbn; [reflexivity | now rewrite IH]. Qed.

Lemma str_drop_bearer (k : string) : str_drop 7 ("Bearer " +:+ k) = k.
Proof. unfold str_drop. simpl. try rewrite Nat.sub_0_r. apply substring_0_length. Qed.

Lemma prefix_app (p k : string) : String.prefix p (p +:+ k) = true.
Proof.
  induction p as [|c p IH]; simpl; [destruct k; reflexivity|].
  destruct (Ascii.ascii_dec c c); [exact IH | contradiction].
Qed.

Lemma prefix_bearer (k : string) : String.prefix "Bearer " ("Bearer " +:+ k) = true.
Proof. apply prefix_app. Qed.

(** X1. With authentication required and no API key configured, the check
    fails closed: every request is refused, with 401 when it presents no
    credential and 503 when it does; nothing is ever accepted. *)
Theorem verify_api_key_fails_closed (cfg : AuthSettings) (authorization x_api_key : option string)
    (Hsec : allow_insecure_dev cfg = false) (Hkey : api_key cfg = "") :
  exists code msg,
    verify_api_key cfg authorization x_api_key = inl (HTTPException code (DetailText msg)) /\
    (code = 401 \/ code = 503).
Proof.
  unfold verify_api_key. rewrite Hsec, Hkey. cbv zeta.
  destruct (configured _); eexists _, _; split; try reflexivity; auto.
Qed.

Lemma verify_api_key_fails_closed_witness :
  exists code msg,
    verify_api_key (mkAuthSettings "" false) (Some "Bearer secret") None
      = inl (HTTPException code (DetailText msg)) /\ (code = 401 \/ code = 503).
Proof. exact (verify_api_key_fails_closed (mkAuthSettings "" false) _ _ eq_refl eq_refl). Defined.

(** X2. An Authorization header starting with "Bearer " decides alone: the
    X-API-Key header is then never read, also when the bearer token is
    empty, which is refused as a missing credential. *)
Theorem verify_api_key_bearer_first (cfg : AuthSettings) (a : string) (x1 x2 : option string)
    (Hb : String.prefix "Bearer " a = true) :
  verify_api_key cfg (Some a) x1 = verify_api_key cfg (Some a) x2 /\
  (allow_insecure_dev cfg = false ->
   verify_api_key cfg (Some "Bearer ") x1
     = inl (HTTPException 401 (DetailText
         "Missing authorization. Use Authorization: Bearer <key> or X-API-Key header"))).
Proof.
  split.
  - unfold verify_api_key. destruct (allow_insecure_dev cfg); [reflexivity|].
    assert (Ht : str_truthy a = true) by (destruct a; [discriminate Hb | reflexivity]).
    rewrite Ht, Hb. reflexivity.
  - intros Hsec. unfold verify_api_key. rewrite Hsec. reflexivity.
Qed.

Lemma verify_api_key_bearer_first_witness :
  verify_api_key (mkAuthSettings "k1" false) (Some "Bearer k2") (Some "k1")
    = verify_api_key (mkAuthSettings "k1" false) (Some "Bearer k2") None /\
  verify_api_key (mkAuthSettings "k1" false) (Some "Bearer k2") None
    = inl (HTTPException 401 (DetailText "Invalid API key")).
Proof.
  split.
  - exact (proj1 (verify_api_key_bearer_first (mkAuthSettings "k1" false) "Bearer k2"
                    (Some "k1") None eq_refl)).
  - reflexivity.
Defined.

Lemma compare_digest_refl (k : string) :
  str_isascii k = true -> compare_digest k k = inr true.
Proof. intros Ha. unfold compare_digest. rewrite Ha. cbn. rewrite String.eqb_refl. reflexivity. Qed.

(** X3. A configured, non-empty ASCII API key is accepted when presented as
    "Bearer <key>" (whatever X-API-Key holds), and as X-API-Key when the
    Authorization header is absent or does not start with "Bearer ". *)
Theorem verify_api_key_accepts (cfg : AuthSettings) (k : string)
    (Hk : api_key cfg = k) (Hne : k <> "") (Hascii : str_isascii k = true) :
  (forall x, verify_api_key cfg (Some ("Bearer " +:+ k)) x = inr true) /\
  verify_api_key cfg None (Some k) = inr true /\
  (forall a, String.prefix "Bearer " a = false -> verify_api_key cfg (Some a) (Some k) = inr true).
Proof.
  subst k. pose proof (compare_digest_refl _ Hascii) as Hc.
  destruct (api_key cfg) as [|c k] eqn:Hk; [congruence|].
  unfold verify_api_key. rewrite Hk.
  destruct (allow_insecure_dev cfg); [repeat split; auto|].
  repeat split.
  - intros x. rewrite prefix_bearer, str_drop_bearer.
    replace (str_truthy ("Bearer " +:+ String c k)) with true by reflexivity.
    cbn -[compare_digest]. rewrite Hc. reflexivity.
  - cbn -[compare_digest]. rewrite Hc. reflexivity.
  - intros a Ha. rewrite Ha, andb_false_r. cbn -[compare_digest]. rewrite Hc. reflexivity.
Qed.

Lemma verify_api_key_accepts_witness :
  verify_api_key (mkAuthSettings "s3cret" false) (Some "Bearer s3cret") None = inr true /\
  verify_api_key (mkAuthSettings "s3cret" false) (Some "Basic abc") (Some "s3cret") = inr true.
Proof.
  destruct (verify_api_key_accepts (mkAuthSettings "s3cret" false) "s3cret" eq_refl
              ltac:(discriminate) eq_refl) as [H1 [_ H3]].
  split; [exact (H1 None) | exact (H3 "Basic abc" eq_refl)].
Defined.

(** X25. A non-empty key presented as "Bearer <key>" is compared with
    [secrets.compare_digest]: when the presented or the configured key holds
    a non-ASCII character the comparison raises [TypeError] (a 500
    response) instead of answering 401. *)
Theorem verify_api_key_non_ascii_type_error (cfg : AuthSettings) (k : string) (x : option string)
    (Hsec : allow_insecure_dev cfg = false) (Hne : k <> "")
    (Hkey : str_truthy (api_key cfg) = true)
    (Hna : str_isascii k && str_isascii (api_key cfg) = false) :
  verify_api_key cfg (Some ("Bearer " +:+ k)) x
    = inl (TypeError "comparing strings with non-ASCII characters is not supported").
Proof.
  unfold verify_api_key. rewrite Hsec, prefix_bearer, str_drop_bearer.
  replace (str_truthy ("Bearer " +:+ k)) with true by reflexivity.
  destruct k as [|c k]; [congruence|].
  cbn -[compare_digest]. rewrite Hkey. cbn -[compare_digest].
  unfold compare_digest. rewrite Hna. reflexivity.
Qed.

(** "é" (U+00E9), as a Latin-1 decoded header carries it. *)
Definition latin1_e_acute : string := String (Ascii.ascii_of_nat 233) EmptyString.

Lemma verify_api_key_non_ascii_type_error_witness :
  verify_api_key (mkAuthSettings "s3cret" false) (Some ("Bearer " +:+ latin1_e_acute)) None
    = inl (TypeError "comparing strings with non-ASCII characters is not supported").
Proof.
  exact (verify_api_key_non_ascii_type_error (mkAuthSettings "s3cret" false) latin1_e_acute None
           eq_refl ltac:(discriminate) eq_refl eq_refl).
Defined.

Lemma ascii_lower_space (c : Ascii.ascii) :
  ascii_lower c = Ascii.ascii_of_nat 32 -> c = Ascii.ascii_of_nat 32.
Proof.
  destruct c as [[] [] [] [] [] [] [] []]; vm_compute; intros H;
    first [reflexivity | discriminate H].
Qed.

Lemma ascii_lower_not_space (c d : Ascii.ascii) :
  ascii_lower c = d -> Ascii.eqb d (Ascii.ascii_of_nat 32) = false ->
  Ascii.eqb c (Ascii.ascii_of_nat 32) = false.
Proof.
  intros <- Hd. destruct (Ascii.eqb c (Ascii.ascii_of_nat 32)) eqn:E; [|reflexivity].
  apply Ascii.eqb_eq in E. subst c. exact Hd.
Qed.

Lemma str_lower_app (a b : string) : str_lower (a +:+ b) = str_lower a +:+ str_lower b.
Proof. induction a as [|c a IH]; simpl; [reflexivity | now rewrite IH]. Qed.

Lemma after_first_space_bearer (p k : string) :
  str_lower p = "bearer " -> after_first_space (p +:+ k) = Some k.
Proof.
  destruct p as [|c1 [|c2 [|c3 [|c4 [|c5 [|c6 [|c7 [|c8 p]]]]]]]]; simpl;
    intros H; try discriminate H.
  injection H as H1 H2 H3 H4 H5 H6 H7.
  rewrite (ascii_lower_not_space c1 _ H1 eq_refl), (ascii_lower_not_space c2 _ H2 eq_refl),
    (ascii_lower_not_space c3 _ H3 eq_refl), (ascii_lower_not_space c4 _ H4 eq_refl),
    (ascii_lower_not_space c5 _ H5 eq_refl), (ascii_lower_not_space c6 _ H6 eq_refl).
  rewrite (ascii_lower_space c7 H7). reflexivity.
Qed.

(** X4. The MCP transport reads its token in order: a truthy [auth_token]
    argument wins over every header; otherwise an Authorization header
    whose scheme is "Bearer" in any letter case yields the text after the
    scheme, whatever the X-API-Key header holds. *)
Theorem extract_auth_token_bearer_any_case (p k : string) (token x : option string)
    (Hp : str_lower p = "bearer ") :
  (truthy token = true -> extract_auth_token token (Some (p +:+ k)) x = token) /\
  extract_auth_token None (Some (p +:+ k)) x = Some k.
Proof.
  split.
  - intros Ht. unfold extract_auth_token. rewrite Ht. reflexivity.
  - unfold extract_auth_token. cbn [truthy].
    assert (Ht : str_truthy (p +:+ k) = true).
    { destruct p; [discriminate Hp | reflexivity]. }
    rewrite Ht, str_lower_app, Hp, prefix_app. cbn [andb].
    apply after_first_space_bearer, Hp.
Qed.

Lemma extract_auth_token_bearer_any_case_witness :
  str_lower "BeArEr " = "bearer " /\
  extract_auth_token None (Some "BeArEr tok-1") (Some "other") = Some "tok-1".
Proof.
  split; [reflexivity|].
  exact (proj2 (extract_auth_token_bearer_any_case "BeArEr " "tok-1" None (Some "other")
                  eq_refl)).
Defined.

(** X5. Unlike the MCP transport, the REST check matches the scheme
    case-sensitively: a header "bearer <key>" carrying the right key,
    with no X-API-Key header, is refused as a missing credential. *)
Theorem verify_api_key_bearer_case_sensitive (cfg : AuthSettings) (k : string)
    (Hsec : allow_insecure_dev cfg = false) :
  verify_api_key cfg (Some ("bearer " +:+ k)) None
    = inl (HTTPException 401 (DetailText
        "Missing authorization. Use Authorization: Bearer <key> or X-API-Key header")).
Proof. unfold verify_api_key. rewrite Hsec. reflexivity. Qed.

Lemma verify_api_key_bearer_case_sensitive_witness :
  verify_api_key (mkAuthSettings "s3cret" false) (Some "bearer s3cret") None
    = inl (HTTPException 401 (DetailText
        "Missing authorization. Use Authorization: Bearer <key> or X-API-Key header")) /\
  extract_auth_token None (Some "bearer s3cret") None = Some "s3cret".
Proof.
  split.
  - exact (verify_api_key_bearer_case_sensitive (mkAuthSettings "s3cret" false) "s3cret" eq_refl).
  - reflexivity.
Defined.

(** ** get.receipt.interview *)

(** [LedgerMirror.get_receipt] either refuses for want of a URL, touching
    nothing, or issues one request: 404 is an absent receipt, 2xx the
    receipt, anything else a [SourceUnavailableError]. *)
Lemma lm_get_receipt_cases (tenant_id receipt_id : string) e w :
  (configured (ledger_mirror_url (settings e)) = None /\
   lm_get_receipt tenant_id receipt_id e w
     = (w, inl (SourceUnavailableError "Ledger mirror URL not configured")))
  \/
  (exists url, configured (ledger_mirror_url (settings e)) = Some url /\
   lm_get_receipt tenant_id receipt_id e w
     = (log_call (GetMirrorReceipt (url +:+ "/receipts/" +:+ receipt_id) tenant_id receipt_id) w,
        match mirror_get (remote e) tenant_id receipt_id with
        | HttpStatus 404 _ => inr None
        | HttpOk rc => inr (Some rc)
        | r => inl (SourceUnavailableError ("Ledger mirror get failed: " +:+ http_error_str r))
        end)).
Proof.
  unfold lm_get_receipt. rewrite !bindM_eq. cbn -[String.append].
  destruct (configured (ledger_mirror_url (settings e))) as [url|].
  - right. exists url. split; [reflexivity|].
    unfold http_get. rewrite !bindM_eq. cbn -[String.append].
    destruct (mirror_get (remote e) tenant_id receipt_id) as [rc|code t|t|t]; try reflexivity.
    destruct code as [|p|p]; try reflexivity;
      repeat match goal with p : positive |- _ => destruct p; try reflexivity end.
  - left. split; reflexivity.
Qed.

Lemma get_receipt_from_cache (request : GetReceiptRequest) e w rc cached_at :
  w_receipt_cache w !! (gr_tenant_id request +:+ ":" +:+ gr_receipt_id request)
    = Some (rc, cached_at) ->
  get_receipt_interview request e w
    = (w, inr (mkGetReceiptResponse (Some rc) true
                 (metadata PROJECTION_CACHE (cache_age_ms (now e) cached_at) false 1))).
Proof.
  intros Hl. unfold get_receipt_interview, pc_get_receipt.
  rewrite !bindM_eq. cbn -[cache_age_ms String.append]. rewrite Hl. reflexivity.
Qed.

Lemma cache_age_ms_now (t : datetime) : cache_age_ms t t = 0.
Proof. unfold cache_age_ms. rewrite Z.sub_diag. reflexivity. Qed.

(** X6. A receipt held by the projection cache is answered from it, found
    and attributed to [projection_cache] at cost 1, with its age and
    whatever that age: the state is left as it was and the mirror is not
    asked. *)
Theorem get_receipt_cache_hit (request : GetReceiptRequest) (e : env) (w : world)
    (rc : FullReceipt) (cached_at : datetime)
    (Hl : w_receipt_cache w !! (gr_tenant_id request +:+ ":" +:+ gr_receipt_id request)
          = Some (rc, cached_at)) :
  get_receipt_interview request e w
    = (w, inr (mkGetReceiptResponse (Some rc) true
                 (metadata PROJECTION_CACHE (cache_age_ms (now e) cached_at) false 1))).
Proof. exact (get_receipt_from_cache request e w rc cached_at Hl). Qed.

(** A world whose receipt cache holds [receipt_example], cached at [t0]. *)
Definition world_receipt_cached : world :=
  mkWorld ∅ ∅ {[ "acme:r1" := (receipt_example, t0) ]} ∅ ∅ [].

Lemma get_receipt_cache_hit_witness :
  get_receipt_interview (mkGetReceiptRequest "acme" "r1")
    (mkEnv settings_example (t0 + 7200000000) remote_down)
    world_receipt_cached
  = (world_receipt_cached,
     inr (mkGetReceiptResponse (Some receipt_example) true
            (metadata PROJECTION_CACHE 7200000 false 1))).
Proof.
  exact (get_receipt_cache_hit (mkGetReceiptRequest "acme" "r1")
           (mkEnv settings_example (t0 + 7200000000) remote_down)
           world_receipt_cached receipt_example t0 ltac:(vm_compute; reflexivity)).
Defined.

(** X7. A receipt fetched from the mirror is written back under the string
    key "tenant_id:receipt_id": the first request issues one mirror request
    and answers from [ledger_mirror] at cost 2; the same request repeated
    is answered from the cache, with age 0 at the same instant, and issues
    nothing. *)
Theorem get_receipt_mirror_write_back (request : GetReceiptRequest) (e : env) (w : world)
    (url : string) (rc : FullReceipt)
    (Hmiss : w_receipt_cache w !! (gr_tenant_id request +:+ ":" +:+ gr_receipt_id request) = None)
    (Hurl : configured (ledger_mirror_url (settings e)) = Some url)
    (Hget : mirror_get (remote e) (gr_tenant_id request) (gr_receipt_id request) = HttpOk rc)
    (Hkey : fr_tenant_id rc +:+ ":" +:+ fr_receipt_id rc
            = gr_tenant_id request +:+ ":" +:+ gr_receipt_id request) :
  exists w1,
    get_receipt_interview request e w
      = (w1, inr (mkGetReceiptResponse (Some rc) true (metadata LEDGER_MIRROR 0 false 2))) /\
    w_calls w1 = w_calls w ++ [GetMirrorReceipt (url +:+ "/receipts/" +:+ gr_receipt_id request)
                                 (gr_tenant_id request) (gr_receipt_id request)] /\
    get_receipt_interview request e w1
      = (w1, inr (mkGetReceiptResponse (Some rc) true (metadata PROJECTION_CACHE 0 false 1))).
Proof.
  assert (Hrun : get_receipt_interview request e w
    = (fst (pc_cache_receipt rc e
              (log_call (GetMirrorReceipt (url +:+ "/receipts/" +:+ gr_receipt_id request)
                           (gr_tenant_id request) (gr_receipt_id request)) w)),
       inr (mkGetReceiptResponse (Some rc) true (metadata LEDGER_MIRROR 0 false 2)))).
  { unfold get_receipt_interview, pc_get_receipt.
    rewrite !bindM_eq. cbn -[String.append lm_get_receipt pc_cache_receipt]. rewrite Hmiss.
    cbn -[String.append lm_get_receipt pc_cache_receipt catchM].
    rewrite bindM_eq, catchM_eq, bindM_eq.
    destruct (lm_get_receipt_cases (gr_tenant_id request) (gr_receipt_id request) e w)
      as [[Hn _] | [url' [Hu Hlm]]]; [congruence|].
    rewrite Hu in Hurl. injection Hurl as <-.
    rewrite Hlm, Hget. reflexivity. }
  eexists. split; [exact Hrun|]. split; [reflexivity|].
  rewrite (get_receipt_from_cache request e _ rc (now e)).
  - rewrite cache_age_ms_now. reflexivity.
  - cbn. rewrite Hkey. apply lookup_insert_eq.
Qed.

Lemma get_receipt_mirror_write_back_witness :
  exists w1,
    get_receipt_interview (mkGetReceiptRequest "acme" "r1")
      (mkEnv settings_example t0 remote_up) world_empty
      = (w1, inr (mkGetReceiptResponse (Some receipt_example) true
                    (metadata LEDGER_MIRROR 0 false 2))) /\
    w_calls w1 = [GetMirrorReceipt "http://mirror/receipts/r1" "acme" "r1"] /\
    get_receipt_interview (mkGetReceiptRequest "acme" "r1")
      (mkEnv settings_example t0 remote_up) w1
      = (w1, inr (mkGetReceiptResponse (Some receipt_example) true
                    (metadata PROJECTION_CACHE 0 false 1))).
Proof.
  exact (get_receipt_mirror_write_back (mkGetReceiptRequest "acme" "r1")
           (mkEnv settings_example t0 remote_up) world_empty "http://mirror" receipt_example
           eq_refl eq_refl eq_refl eq_refl).
Defined.

(** X8. When the cache misses and the mirror yields no receipt (URL not
    configured, 404, any other non-2xx status, timeout or transport
    failure), the handler answers "not found" from [projection_cache] at
    cost 1 instead of an error, and writes nothing to the receipt cache. *)
Theorem get_receipt_not_found (request : GetReceiptRequest) (e : env) (w : world)
    (Hmiss : w_receipt_cache w !! (gr_tenant_id request +:+ ":" +:+ gr_receipt_id request) = None)
    (Hno : forall rc, mirror_get (remote e) (gr_tenant_id request) (gr_receipt_id request)
                      <> HttpOk rc) :
  exists w1,
    get_receipt_interview request e w
      = (w1, inr (mkGetReceiptResponse None false (metadata PROJECTION_CACHE 0 false 1))) /\
    w_receipt_cache w1 = w_receipt_cache w.
Proof.
  unfold get_receipt_interview, pc_get_receipt.
  rewrite !bindM_eq. cbn -[String.append lm_get_receipt pc_cache_receipt]. rewrite Hmiss.
    cbn -[String.append lm_get_receipt pc_cache_receipt catchM].
  rewrite bindM_eq, catchM_eq, bindM_eq.
  destruct (lm_get_receipt_cases (gr_tenant_id request) (gr_receipt_id request) e w)
    as [[_ Hlm] | [url [_ Hlm]]]; rewrite Hlm.
  - eexists. split; reflexivity.
  - destruct (mirror_get (remote e) (gr_tenant_id request) (gr_receipt_id request)) as
      [rc | code | |] eqn:Hg.
    + exfalso. exact (Hno rc eq_refl).
    + destruct code as [|p|p]; try (eexists; split; reflexivity);
        repeat match goal with p : positive |- _ =>
                 destruct p; try (eexists; split; reflexivity) end.
    + eexists; split; reflexivity.
    + eexists; split; reflexivity.
Qed.

Lemma get_receipt_not_found_witness :
  exists w1,
    get_receipt_interview (mkGetReceiptRequest "acme" "r1")
      (mkEnv settings_example t0 remote_down) world_empty
      = (w1, inr (mkGetReceiptResponse None false (metadata PROJECTION_CACHE 0 false 1))) /\
    w_receipt_cache w1 = ∅.
Proof.
  exact (get_receipt_not_found (mkGetReceiptRequest "acme" "r1")
           (mkEnv settings_example t0 remote_down) world_empty eq_refl
           (fun rc H => ltac:(discriminate H))).
Defined.

Lemma pc_cache_receipt_run (rc : FullReceipt) e w :
  pc_cache_receipt rc e w
    = (set_receipt_cache (<[fr_tenant_id rc +:+ ":" +:+ fr_receipt_id rc := (rc, now e)]>
                            (w_receipt_cache w)) w, inr tt).
Proof. reflexivity. Qed.

(** X9. The receipt cache is keyed by the joined string
    "tenant_id:receipt_id", so after a receipt is cached, every request
    whose joined key is the same string is answered with it from the cache,
    including a request of another tenant when an identifier contains ":". *)
Theorem receipt_cache_key_collision (rc : FullReceipt) (e : env) (w : world)
    (request : GetReceiptRequest)
    (Hkey : gr_tenant_id request +:+ ":" +:+ gr_receipt_id request
            = fr_tenant_id rc +:+ ":" +:+ fr_receipt_id rc) :
  let w1 := fst (pc_cache_receipt rc e w) in
  get_receipt_interview request e w1
    = (w1, inr (mkGetReceiptResponse (Some rc) true (metadata PROJECTION_CACHE 0 false 1))).
Proof.
  intros w1. rewrite (get_receipt_from_cache request e w1 rc (now e)).
  - rewrite cache_age_ms_now. reflexivity.
  - subst w1. rewrite pc_cache_receipt_run. cbn [fst w_receipt_cache set_receipt_cache].
    rewrite Hkey. apply lookup_insert_eq.
Qed.

(** A receipt of tenant "a:b" with identifier "c". *)
Definition receipt_colon : FullReceipt :=
  mkFullReceipt "c" "a:b" "t1" (Some "root") None None "complete" None None None
    None None None None None None None None None None None None None false.

Lemma receipt_cache_key_collision_witness :
  fr_tenant_id receipt_colon <> "a" /\
  get_receipt_interview (mkGetReceiptRequest "a" "b:c") (mkEnv settings_example t0 remote_down)
    (fst (pc_cache_receipt receipt_colon (mkEnv settings_example t0 remote_down) world_empty))
  = (fst (pc_cache_receipt receipt_colon (mkEnv settings_example t0 remote_down) world_empty),
     inr (mkGetReceiptResponse (Some receipt_colon) true (metadata PROJECTION_CACHE 0 false 1))).
Proof.
  split; [discriminate|].
  exact (receipt_cache_key_collision receipt_colon (mkEnv settings_example t0 remote_down)
           world_empty (mkGetReceiptRequest "a" "b:c") eq_refl).
Defined.

(** ** status.receipts.interview and the status cache *)

(** X10. Caching a status and reading it back at the same instant returns
    it with age 0 (for a positive TTL), replacing whatever the cache held
    for the same (tenant, root task) pair: the status endpoint, asked for
    that pair by [root_task_id], answers the cached status from
    [projection_cache] at cost 1 and changes nothing. *)
Theorem status_cache_round_trip (st : StatusSummary) (e : env) (w : world)
    (task_id : option string)
    (Httl : 0 < projection_cache_ttl_seconds (settings e))
    (Hroot : ss_root_task_id st <> "") :
  let w1 := fst (pc_cache_status st e w) in
  status_receipts_interview
    (mkStatusReceiptsRequest (ss_tenant_id st) task_id (Some (ss_root_task_id st))) e w1
  = (w1, inr (mkStatusReceiptsResponse st (metadata PROJECTION_CACHE 0 false 1))).
Proof.
  intros w1. unfold status_receipts_interview, py_or, configured.
  cbn [str_root_task_id str_task_id str_tenant_id].
  assert (Ht : truthy (Some (ss_root_task_id st)) = true).
  { destruct (ss_root_task_id st); [congruence | reflexivity]. }
  rewrite !Ht. unfold pc_get_status. rewrite !bindM_eq. cbn -[cache_age_ms].
  rewrite lookup_insert_eq, cache_age_ms_now.
  replace (0 <? projection_cache_ttl_seconds (settings e) * 1000) with true
    by (symmetry; apply Z.ltb_lt; lia).
  reflexivity.
Qed.

Definition status_example_done : StatusSummary :=
  mkStatusSummary "acme" "root" RESOLVED (Some "r9") (Some t0) (Some 0) None None [].

Lemma status_cache_round_trip_witness :
  status_receipts_interview (mkStatusReceiptsRequest "acme" (Some "other") (Some "root"))
    (mkEnv settings_example t0 remote_up)
    (fst (pc_cache_status status_example_done (mkEnv settings_example t0 remote_up) world_empty))
  = (fst (pc_cache_status status_example_done (mkEnv settings_example t0 remote_up) world_empty),
     inr (mkStatusReceiptsResponse status_example_done (metadata PROJECTION_CACHE 0 false 1))).
Proof.
  exact (status_cache_round_trip status_example_done (mkEnv settings_example t0 remote_up)
           world_empty (Some "other") ltac:(vm_compute; reflexivity) ltac:(discriminate)).
Defined.

(** X11. The status endpoint resolves the task as [root_task_id or
    task_id]: when neither is a non-empty string it answers 400 and leaves
    the state as it was; when [root_task_id] is non-empty, [task_id] is
    never read. *)
Theorem status_root_id_resolution (request : StatusReceiptsRequest) (e : env) (w : world) :
  (truthy (str_root_task_id request) = false -> truthy (str_task_id request) = false ->
   status_receipts_interview request e w
     = (w, inl (HTTPException 400 (DetailText "Either task_id or root_task_id is required")))) /\
  (truthy (str_root_task_id request) = true -> forall task_id,
   status_receipts_interview request e w
     = status_receipts_interview
         (mkStatusReceiptsRequest (str_tenant_id request) task_id (str_root_task_id request)) e w).
Proof.
  destruct request as [tenant tk rt]. cbn [str_root_task_id str_task_id str_tenant_id].
  unfold status_receipts_interview, py_or, configured.
  cbn [str_root_task_id str_task_id str_tenant_id].
  split.
  - intros Hr Ht. rewrite Hr, Ht. reflexivity.
  - intros Hr task_id. rewrite !Hr. reflexivity.
Qed.

Lemma status_root_id_resolution_witness :
  status_receipts_interview (mkStatusReceiptsRequest "acme" (Some "") None)
    (mkEnv settings_example t0 remote_up) world_with_header
    = (world_with_header,
       inl (HTTPException 400 (DetailText "Either task_id or root_task_id is required"))) /\
  status_receipts_interview (mkStatusReceiptsRequest "acme" (Some "t1") (Some "root"))
    (mkEnv settings_example t0 remote_up) world_empty
    = status_receipts_interview (mkStatusReceiptsRequest "acme" None (Some "root"))
        (mkEnv settings_example t0 remote_up) world_empty.
Proof.
  split.
  - exact (proj1 (status_root_id_resolution (mkStatusReceiptsRequest "acme" (Some "") None)
                    (mkEnv settings_example t0 remote_up) world_with_header) eq_refl eq_refl).
  - exact (proj2 (status_root_id_resolution (mkStatusReceiptsRequest "acme" (Some "t1") (Some "root"))
                    (mkEnv settings_example t0 remote_up) world_empty) eq_refl None).
Defined.

(** ** search.receipts.interview: the projection-cache query *)

Lemma insert_desc_perm {A} (k : A -> Z) (x : A) (xs : list A) :
  Permutation (insert_desc k x xs) (x :: xs).
Proof.
  induction xs as [|y ys IH]; cbn; [reflexivity|].
  destruct (k x <=? k y); [|reflexivity].
  rewrite IH. apply perm_swap.
Qed.

Lemma sort_desc_aux_perm {A} (k : A -> Z) (acc xs : list A) :
  Permutation (sort_desc_aux k acc xs) (acc ++ xs).
Proof.
  revert acc. induction xs as [|x xs IH]; intros acc; cbn.
  - rewrite app_nil_r. reflexivity.
  - rewrite IH, insert_desc_perm. apply Permutation_middle.
Qed.

Lemma In_sorted_desc {A} (k : A -> Z) (xs : list A) x :
  In x (sorted_desc k xs) -> In x xs.
Proof.
  intros H. apply (Permutation_in x (sort_desc_aux_perm k [] xs)) in H. exact H.
Qed.

Lemma In_take {A} (n : nat) (xs : list A) x : In x (take n xs) -> In x xs.
Proof.
  revert n. induction xs as [|y xs IH]; intros [|n] H; cbn in H; try contradiction.
  destruct H as [<-|H]; [left; reflexivity | right; exact (IH n H)].
Qed.

Lemma In_py_prefix {A} (n : Z) (xs : list A) x : In x (py_prefix n xs) -> In x xs.
Proof. unfold py_prefix. destruct (0 <=? n); apply In_take. Qed.

Lemma pc_search_fst w tenant_id root_task_id phase recipient_ai since limit :
  fst (pc_search w tenant_id root_task_id phase recipient_ai since limit)
  = py_prefix limit (sorted_desc created_at_key
      (let headers := dict_get (w_receipt_headers w !! (tenant_id +:+ ":" +:+ root_task_id)) [] in
       let headers :=
         match phase with
         | Some p => if truthy phase
                     then List.filter (fun h => bool_decide (rh_phase h = p)) headers
                     else headers
         | None => headers
         end in
       let headers :=
         match recipient_ai with
         | Some r => if truthy recipient_ai
                     then List.filter (fun h => bool_decide (rh_recipient_ai h = Some r)) headers
                     else headers
         | None => headers
         end in
       match since with
       | Some s => List.filter (fun h => match rh_created_at h with
                                         | Some c => s <=? c
                                         | None => false
                                         end) headers
       | None => headers
       end)).
Proof. reflexivity. Qed.

(** X12. Every receipt header the projection-cache search returns is one
    cached for the requested (tenant, root task) lineage, and satisfies
    each filter that was applied: the phase and the recipient when they
    are non-empty strings, and a known creation time at or after [since]
    when [since] is given. *)
Theorem pc_search_sound (w : world) (tenant_id root_task_id : string)
    (phase recipient_ai : option string) (since : option datetime) (limit : Z)
    (h : ReceiptHeader)
    (Hin : In h (fst (pc_search w tenant_id root_task_id phase recipient_ai since limit))) :
  In h (dict_get (w_receipt_headers w !! (tenant_id +:+ ":" +:+ root_task_id)) []) /\
  (forall p, phase = Some p -> truthy phase = true -> rh_phase h = p) /\
  (forall r, recipient_ai = Some r -> truthy recipient_ai = true -> rh_recipient_ai h = Some r) /\
  (forall s, since = Some s -> exists c, rh_created_at h = Some c /\ s <= c).
Proof.
  rewrite pc_search_fst in Hin. cbv zeta in Hin.
  apply In_py_prefix, In_sorted_desc in Hin.
  set (hs := dict_get _ []) in *.
  assert (Hs : In h (match recipient_ai with
                     | Some r => if truthy recipient_ai
                                 then List.filter (fun h => bool_decide (rh_recipient_ai h = Some r))
                                        (match phase with
                                         | Some p => if truthy phase
                                                     then List.filter (fun h => bool_decide (rh_phase h = p)) hs
                                                     else hs
                                         | None => hs
                                         end)
                                 else (match phase with
                                       | Some p => if truthy phase
                                                   then List.filter (fun h => bool_decide (rh_phase h = p)) hs
                                                   else hs
                                       | None => hs
                                       end)
                     | None => (match phase with
                                | Some p => if truthy phase
                                            then List.filter (fun h => bool_decide (rh_phase h = p)) hs
                                            else hs
                                | None => hs
                                end)
                     end) /\
               forall s, since = Some s -> exists c, rh_created_at h = Some c /\ s <= c).
  { destruct since as [s|].
    - apply filter_In in Hin as [Hin Hc]. split; [exact Hin|].
      intros s' [= <-]. destruct (rh_created_at h) as [c|]; [|discriminate Hc].
      exists c. split; [reflexivity | apply Z.leb_le, Hc].
    - split; [exact Hin | discriminate]. }
  clear Hin. destruct Hs as [Hin Hsince].
  assert (Hp : In h (match phase with
                     | Some p => if truthy phase
                                 then List.filter (fun h => bool_decide (rh_phase h = p)) hs
                                 else hs
                     | None => hs
                     end) /\
               forall r, recipient_ai = Some r -> truthy recipient_ai = true ->
                 rh_recipient_ai h = Some r).
  { destruct recipient_ai as [r|]; [destruct (truthy (Some r)) eqn:Hr|].
    - apply filter_In in Hin as [Hin Hc]. split; [exact Hin|].
      intros r' [= <-] _. exact (bool_decide_eq_true_1 _ Hc).
    - split; [exact Hin|]. intros r' Heq Ht. injection Heq as <-. congruence.
    - split; [exact Hin | discriminate]. }
  clear Hin. destruct Hp as [Hin Hrec].
  destruct phase as [p|]; [destruct (truthy (Some p)) eqn:Hph|].
  - apply filter_In in Hin as [Hin Hc].
    split; [exact Hin|]. split; [|split; [exact Hrec | exact Hsince]].
    intros p' [= <-] _. exact (bool_decide_eq_true_1 _ Hc).
  - split; [exact Hin|]. split; [|split; [exact Hrec | exact Hsince]].
    intros p' Heq Ht. injection Heq as <-. congruence.
  - split; [exact Hin|]. split; [discriminate | split; [exact Hrec | exact Hsince]].
Qed.

Lemma pc_search_sound_witness :
  In header_recent (fst (pc_search world_with_header "acme" "root" (Some "accepted") None
                           (Some (t0 - hour)) 100)) /\
  rh_phase header_recent = "accepted" /\
  exists c, rh_created_at header_recent = Some c /\ t0 - hour <= c.
Proof.
  assert (Hin : In header_recent (fst (pc_search world_with_header "acme" "root"
                  (Some "accepted") None (Some (t0 - hour)) 100)))
    by (vm_compute; left; reflexivity).
  destruct (pc_search_sound world_with_header "acme" "root" (Some "accepted") None
              (Some (t0 - hour)) 100 header_recent Hin) as [_ [Hp [_ Hs]]].
  split; [exact Hin|]. split; [exact (Hp "accepted" eq_refl eq_refl) | exact (Hs _ eq_refl)].
Defined.

Lemma insert_desc_sorted {A} (k : A -> Z) (x : A) (xs : list A) :
  Sorted (fun a b => k b <= k a) xs -> Sorted (fun a b => k b <= k a) (insert_desc k x xs).
Proof.
  induction xs as [|y ys IH]; intros H; cbn.
  - repeat constructor.
  - destruct (k x <=? k y) eqn:E.
    + apply Z.leb_le in E. apply Sorted_inv in H as [Hs Hd].
      constructor; [exact (IH Hs)|].
      destruct ys as [|z zs]; cbn.
      * constructor. exact E.
      * destruct (k x <=? k z); constructor; [inversion Hd; assumption | exact E].
    + apply Z.leb_gt in E. constructor; [exact H | constructor; lia].
Qed.

Lemma sort_desc_aux_sorted {A} (k : A -> Z) (acc xs : list A) :
  Sorted (fun a b => k b <= k a) acc -> Sorted (fun a b => k b <= k a) (sort_desc_aux k acc xs).
Proof.
  revert acc. induction xs as [|x xs IH]; intros acc H; cbn; [exact H|].
  apply IH, insert_desc_sorted, H.
Qed.

Lemma Sorted_take {A} (R : A -> A -> Prop) (n : nat) (xs : list A) :
  Sorted R xs -> Sorted R (take n xs).
Proof.
  revert n. induction xs as [|y xs IH]; intros [|n] H; cbn; try constructor.
  - apply Sorted_inv in H as [Hs Hd]. exact (IH n Hs).
  - apply Sorted_inv in H as [_ Hd].
    destruct xs as [|z zs], n as [|n]; cbn; constructor. inversion Hd; assumption.
Qed.

(** X13. The projection-cache search returns its headers newest first:
    each header's creation time (a missing one read as [datetime.min]) is
    at least that of the header after it, whatever the filters and the
    limit. *)
Theorem pc_search_sorted (w : world) (tenant_id root_task_id : string)
    (phase recipient_ai : option string) (since : option datetime) (limit : Z) :
  Sorted (fun a b => created_at_key b <= created_at_key a)
    (fst (pc_search w tenant_id root_task_id phase recipient_ai since limit)).
Proof.
  rewrite pc_search_fst. unfold py_prefix, sorted_desc.
  destruct (0 <=? limit); apply Sorted_take, sort_desc_aux_sorted; constructor.
Qed.

(** ** Component poller: outcomes of a poll that misses the cache *)

Lemma cp_check_rate_limit_ok (component : string) e w :
  let ts := recent_calls (now e) (dict_get (w_rate_limiter w !! component) []) in
  Z.of_nat (length ts) < component_poll_rate_limit_per_minute (settings e) ->
  cp_check_rate_limit component e w
    = (set_rate_limiter (<[component := ts ++ [now e]]> (w_rate_limiter w)) w, inr true).
Proof.
  intros ts Hok. unfold cp_check_rate_limit. rewrite !bindM_eq. cbn -[recent_calls].
  fold ts. replace (_ <=? _) with false by (symmetry; apply Z.leb_gt; lia).
  cbn -[recent_calls]. rewrite insert_insert_eq. reflexivity.
Qed.

Lemma cp_get_cached_miss_cache (cache_key : string) e w w1 :
  cp_get_cached cache_key e w = (w1, inr None) ->
  w_poll_cache w1 = delete cache_key (w_poll_cache w).
Proof.
  unfold cp_get_cached. rewrite !bindM_eq. cbn -[cache_age_ms].
  destruct (w_poll_cache w !! cache_key) as [[d t]|] eqn:Hl.
  - destruct (_ <? _); intros H; inversion H; reflexivity.
  - intros H. inversion H. subst. symmetry. apply delete_id. exact Hl.
Qed.

Lemma cp_poll_health_from_cache (tenant_id : string) (verbose : bool) e w data cached_at :
  w_poll_cache w !! health_cache_key tenant_id verbose = Some (data, cached_at) ->
  cache_age_ms (now e) cached_at < component_poll_cache_seconds (settings e) * 1000 ->
  cp_poll_asyncgate_health tenant_id verbose e w
    = (w, inr (data, cache_age_ms (now e) cached_at)).
Proof.
  intros Hl Hfresh. unfold cp_poll_asyncgate_health. rewrite bindM_eq.
  rewrite (cp_get_cached_hit _ e w data cached_at Hl Hfresh). reflexivity.
Qed.

(** X14. A health poll that misses the cache, with the URL configured and
    a free slot in the rate window, issues one request, records its time in
    the window and, on success, caches the payload under the request's key:
    the same poll repeated at the same instant (for a positive cache
    lifetime) is answered from the cache and issues nothing. *)
Theorem poll_health_success_cached (e : env) (w : world) (tenant_id url : string)
    (verbose : bool) (data : AsyncGatePayload)
    (Hno : forall d t, w_poll_cache w !! health_cache_key tenant_id verbose = Some (d, t) ->
           component_poll_cache_seconds (settings e) * 1000 <= cache_age_ms (now e) t)
    (Hurl : configured (asyncgate_url (settings e)) = Some url)
    (Hok : Z.of_nat (length (recent_calls (now e)
                               (dict_get (w_rate_limiter w !! "asyncgate") [])))
           < component_poll_rate_limit_per_minute (settings e))
    (Hget : asyncgate_health (remote e) tenant_id verbose = HttpOk data)
    (Hcs : 0 < component_poll_cache_seconds (settings e)) :
  exists w1,
    cp_poll_asyncgate_health tenant_id verbose e w = (w1, inr (data, 0)) /\
    w_calls w1 = w_calls w ++ [GetAsyncGateHealth (url +:+ "/health") tenant_id verbose] /\
    w_rate_limiter w1 !! "asyncgate"
      = Some (recent_calls (now e) (dict_get (w_rate_limiter w !! "asyncgate") []) ++ [now e]) /\
    cp_poll_asyncgate_health tenant_id verbose e w1 = (w1, inr (data, 0)).
Proof.
  destruct (cp_get_cached_miss _ e w Hno) as [w1 [Hg [Hc Hr]]].
  eexists. split.
  { unfold cp_poll_asyncgate_health. rewrite bindM_eq, Hg.
    cbn -[cp_check_rate_limit health_cache_key String.append]. rewrite Hurl, bindM_eq.
    rewrite cp_check_rate_limit_ok by (rewrite Hr; exact Hok).
    cbn -[health_cache_key String.append recent_calls].
    rewrite Hget. reflexivity. }
  split; [cbn; rewrite Hc; reflexivity|].
  split; [cbn; rewrite lookup_insert_eq, Hr; reflexivity|].
  rewrite (cp_poll_health_from_cache tenant_id verbose e _ data (now e)).
  - rewrite cache_age_ms_now. reflexivity.
  - cbn. apply lookup_insert_eq.
  - rewrite cache_age_ms_now. lia.
Qed.

Lemma poll_health_success_cached_witness :
  exists w1,
    cp_poll_asyncgate_health "acme" false (mkEnv settings_example t0 remote_up) world_empty
      = (w1, inr (payload_example, 0)) /\
    w_calls w1 = [GetAsyncGateHealth "http://asyncgate/health" "acme" false] /\
    w_rate_limiter w1 !! "asyncgate" = Some [t0] /\
    cp_poll_asyncgate_health "acme" false (mkEnv settings_example t0 remote_up) w1
      = (w1, inr (payload_example, 0)).
Proof.
  destruct (poll_health_success_cached (mkEnv settings_example t0 remote_up) world_empty
              "acme" "http://asyncgate" false payload_example
              (fun d t H => ltac:(vm_compute in H; discriminate H)) eq_refl
              ltac:(vm_compute; reflexivity) eq_refl ltac:(vm_compute; reflexivity))
    as [w1 [H1 [H2 [H3 H4]]]].
  exists w1. split; [exact H1|]. split; [exact H2|]. split; [|exact H4].
  rewrite H3. reflexivity.
Defined.

(** X15. A health poll that misses the cache and fails (timeout, error
    status or transport failure) after passing the rate limiter still
    consumes a slot of the rate window and the request is issued; nothing
    is cached (an expired entry for the key is dropped), and the endpoint
    degrades to [reachable = false] from [component_poll] at cost 1. *)
Theorem poll_health_failure_consumes_slot (e : env) (w : world) (tenant_id url : string)
    (verbose : bool)
    (Hno : forall d t, w_poll_cache w !! health_cache_key tenant_id verbose = Some (d, t) ->
           component_poll_cache_seconds (settings e) * 1000 <= cache_age_ms (now e) t)
    (Hurl : configured (asyncgate_url (settings e)) = Some url)
    (Hok : Z.of_nat (length (recent_calls (now e)
                               (dict_get (w_rate_limiter w !! "asyncgate") [])))
           < component_poll_rate_limit_per_minute (settings e))
    (Hfail : forall data, asyncgate_health (remote e) tenant_id verbose <> HttpOk data) :
  exists w1,
    health_async_interview (mkHealthAsyncRequest tenant_id verbose) e w
      = (w1, inr (mkHealthAsyncResponse "asyncgate" false None None None None
                    (metadata COMPONENT_POLL 0 false 1))) /\
    w_calls w1 = w_calls w ++ [GetAsyncGateHealth (url +:+ "/health") tenant_id verbose] /\
    w_rate_limiter w1 !! "asyncgate"
      = Some (recent_calls (now e) (dict_get (w_rate_limiter w !! "asyncgate") []) ++ [now e]) /\
    w_poll_cache w1 = delete (health_cache_key tenant_id verbose) (w_poll_cache w).
Proof.
  destruct (cp_get_cached_miss _ e w Hno) as [w1 [Hg [Hc Hr]]].
  pose proof (cp_get_cached_miss_cache _ e w w1 Hg) as Hpc.
  set (W := log_call (GetAsyncGateHealth (url +:+ "/health") tenant_id verbose)
              (set_rate_limiter (<[ "asyncgate" := recent_calls (now e)
                  (dict_get (w_rate_limiter w1 !! "asyncgate") []) ++ [now e] ]>
                  (w_rate_limiter w1)) w1)).
  assert (Hpoll : exists m, cp_poll_asyncgate_health tenant_id verbose e w
                            = (W, inl (SourceUnavailableError m))).
  { unfold cp_poll_asyncgate_health. rewrite bindM_eq, Hg.
    cbn -[cp_check_rate_limit health_cache_key String.append]. rewrite Hurl, bindM_eq.
    rewrite cp_check_rate_limit_ok by (rewrite Hr; exact Hok).
    cbn -[health_cache_key String.append recent_calls].
    destruct (asyncgate_health (remote e) tenant_id verbose) as [d| | |] eqn:Hh.
    - exfalso. exact (Hfail d eq_refl).
    - eexists. reflexivity.
    - eexists. reflexivity.
    - eexists. reflexivity. }
  destruct Hpoll as [m Hpoll].
  exists W. split.
  - unfold health_async_interview. rewrite catchM_eq, bindM_eq. cbn [ha_tenant_id ha_verbose].
    rewrite Hpoll. reflexivity.
  - split; [cbn; rewrite Hc; reflexivity|].
    split; [cbn; rewrite lookup_insert_eq, Hr; reflexivity|].
    cbn. exact Hpc.
Qed.

(** A health payload cached ten seconds before [t0], expired at [t0]. *)
Definition world_health_cached_old : world :=
  mkWorld ∅ ∅ ∅ {[ health_cache_key "acme" false := (payload_example, t0 - 10000000) ]} ∅ [].

Lemma poll_health_failure_consumes_slot_witness :
  exists w1,
    health_async_interview (mkHealthAsyncRequest "acme" false)
      (mkEnv settings_example t0 remote_down) world_health_cached_old
      = (w1, inr (mkHealthAsyncResponse "asyncgate" false None None None None
                    (metadata COMPONENT_POLL 0 false 1))) /\
    w_calls w1 = [GetAsyncGateHealth "http://asyncgate/health" "acme" false] /\
    w_rate_limiter w1 !! "asyncgate" = Some [t0] /\
    w_poll_cache w1 = ∅.
Proof.
  destruct (poll_health_failure_consumes_slot (mkEnv settings_example t0 remote_down)
              world_health_cached_old "acme" "http://asyncgate" false
              ltac:(intros d t H; vm_compute in H; injection H as <- <-; vm_compute; discriminate)
              eq_refl ltac:(vm_compute; reflexivity) (fun d H => ltac:(discriminate H)))
    as [w1 [H1 [H2 [H3 H4]]]].
  exists w1. split; [exact H1|]. split; [exact H2|]. split.
  - rewrite H3. reflexivity.
  - rewrite H4. vm_compute. reflexivity.
Defined.

(** X16. Without a configured AsyncGate URL, a health poll that misses the
    cache neither issues a request nor touches the rate window, and the
    endpoint degrades to [reachable = false] at cost 1. *)
Theorem poll_health_unconfigured (e : env) (w : world) (tenant_id : string) (verbose : bool)
    (Hno : forall d t, w_poll_cache w !! health_cache_key tenant_id verbose = Some (d, t) ->
           component_poll_cache_seconds (settings e) * 1000 <= cache_age_ms (now e) t)
    (Hurl : configured (asyncgate_url (settings e)) = None) :
  exists w1,
    health_async_interview (mkHealthAsyncRequest tenant_id verbose) e w
      = (w1, inr (mkHealthAsyncResponse "asyncgate" false None None None None
                    (metadata COMPONENT_POLL 0 false 1))) /\
    w_calls w1 = w_calls w /\ w_rate_limiter w1 = w_rate_limiter w.
Proof.
  destruct (cp_get_cached_miss _ e w Hno) as [w1 [Hg [Hc Hr]]].
  exists w1. split; [|split; [exact Hc | exact Hr]].
  unfold health_async_interview, cp_poll_asyncgate_health.
  rewrite catchM_eq, !bindM_eq. cbn [ha_tenant_id ha_verbose]. rewrite Hg.
  cbn -[cp_check_rate_limit health_cache_key]. rewrite Hurl. reflexivity.
Qed.

Definition settings_no_asyncgate : Settings :=
  mkSettings (Some "http://mirror") (Some "") false None 60 500 5 100 200 24 168 60.

Lemma poll_health_unconfigured_witness :
  exists w1,
    health_async_interview (mkHealthAsyncRequest "acme" true)
      (mkEnv settings_no_asyncgate t0 remote_up) world_rate_full
      = (w1, inr (mkHealthAsyncResponse "asyncgate" false None None None None
                    (metadata COMPONENT_POLL 0 false 1))) /\
    w_calls w1 = [] /\ w_rate_limiter w1 = {[ "asyncgate" := full_window ]}.
Proof.
  exact (poll_health_unconfigured (mkEnv settings_no_asyncgate t0 remote_up) world_rate_full
           "acme" true (fun d t H => ltac:(vm_compute in H; discriminate H)) eq_refl).
Defined.

(** ** Component poller: the rate window *)

Lemma length_recent_calls (now : datetime) (ts : list datetime) :
  (length (recent_calls now ts) <= length ts)%nat.
Proof.
  unfold recent_calls. induction ts as [|t ts IH]; cbn; [lia|].
  destruct (now - t <? rate_window); cbn; lia.
Qed.

(** X17. [_check_rate_limit] admits a call exactly when fewer calls than
    the per-minute ceiling remain in the trailing 60 s window, and then
    records the current time. A window holding at most [ceiling]
    timestamps still holds at most [ceiling] afterwards, and every
    timestamp it keeps lies within the window or is the current time. *)
Theorem rate_limiter_window (component : string) (e : env) (w : world)
    (Hinv : Z.of_nat (length (dict_get (w_rate_limiter w !! component) []))
            <= component_poll_rate_limit_per_minute (settings e)) :
  let ts := recent_calls (now e) (dict_get (w_rate_limiter w !! component) []) in
  let w' := fst (cp_check_rate_limit component e w) in
  snd (cp_check_rate_limit component e w)
    = inr (Z.of_nat (length ts) <? component_poll_rate_limit_per_minute (settings e)) /\
  Z.of_nat (length (dict_get (w_rate_limiter w' !! component) []))
    <= component_poll_rate_limit_per_minute (settings e) /\
  (forall t, In t (dict_get (w_rate_limiter w' !! component) []) ->
     now e - t < rate_window \/ t = now e).
Proof.
  intros ts w'. subst w'.
  assert (Hts : forall t, In t ts -> now e - t < rate_window).
  { intros t Ht. apply filter_In in Ht as [_ Ht]. apply Z.ltb_lt, Ht. }
  pose proof (length_recent_calls (now e) (dict_get (w_rate_limiter w !! component) [])) as Hlen.
  fold ts in Hlen.
  destruct (Z.of_nat (length ts) <? component_poll_rate_limit_per_minute (settings e)) eqn:Hc.
  - apply Z.ltb_lt in Hc.
    rewrite (cp_check_rate_limit_ok component e w Hc). cbn [fst snd w_rate_limiter set_rate_limiter].
    rewrite lookup_insert_eq. cbn [dict_get].
    split; [reflexivity|]. split.
    + rewrite length_app. change (length [now e]) with 1%nat. unfold ts in Hc. lia.
    + intros t Ht. rewrite lookup_insert_eq in Ht. cbn [dict_get] in Ht. apply in_app_iff in Ht as [Ht | [<- | []]]; [left; exact (Hts t Ht) | right; reflexivity].
  - apply Z.ltb_ge in Hc.
    rewrite (cp_check_rate_limit_full component e w Hc). cbn [fst snd w_rate_limiter set_rate_limiter].
    rewrite lookup_insert_eq. cbn [dict_get].
    split; [reflexivity|]. split.
    + unfold ts in *. lia.
    + intros t Ht. rewrite lookup_insert_eq in Ht. left. exact (Hts t Ht).
Qed.

Lemma rate_limiter_window_witness :
  snd (cp_check_rate_limit "asyncgate" (mkEnv settings_example (t0 + 30000000) remote_up)
         world_rate_full) = inr false /\
  Z.of_nat (length (dict_get (w_rate_limiter (fst (cp_check_rate_limit "asyncgate"
         (mkEnv settings_example (t0 + 30000000) remote_up) world_rate_full)) !! "asyncgate") []))
    <= 60.
Proof.
  destruct (rate_limiter_window "asyncgate" (mkEnv settings_example (t0 + 30000000) remote_up)
              world_rate_full ltac:(vm_compute; discriminate)) as [H1 [H2 _]].
  split; [rewrite H1; vm_compute; reflexivity | exact H2].
Defined.

(** ** health.async.interview: verbosity *)

(** X18. A non-verbose health request never returns a metrics snapshot,
    whatever AsyncGate or the cache supplied. *)
Theorem health_metrics_only_verbose (request : HealthAsyncRequest) (e : env) (w w' : world)
    (resp : HealthAsyncResponse)
    (Hv : ha_verbose request = false)
    (Hrun : health_async_interview request e w = (w', inr resp)) :
  metrics_snapshot resp = None.
Proof.
  unfold health_async_interview in Hrun. rewrite catchM_eq, bindM_eq in Hrun.
  destruct (cp_poll_asyncgate_health _ _ e w) as [w1 [x | [data age_ms]]].
  - destruct (is_SourceUnavailableError x).
    + cbn in Hrun. injection Hrun as _ <-. reflexivity.
    + destruct (is_DataSourceError x); cbn in Hrun; discriminate Hrun.
  - cbn in Hrun. rewrite Hv in Hrun. injection Hrun as _ <-. reflexivity.
Qed.

(** An AsyncGate answering with a metrics snapshot. *)
Definition payload_with_metrics : AsyncGatePayload :=
  mkAsyncGatePayload (Some "asyncgate") (Some "1.0") (Some 10) None
    (Some (mkMetricsSnapshot 1 2 3 4)) (Some 3) (Some 500) (Some 1) None.

Definition remote_metrics : Remote :=
  mkRemote (fun _ => HttpOk []) (fun _ _ => HttpStatus 404 "Client error '404 Not Found'")
    (fun _ _ => HttpOk payload_with_metrics) (fun _ => HttpOk payload_with_metrics)
    (fun _ _ => HttpOk []).

Lemma health_metrics_only_verbose_witness :
  match health_async_interview (mkHealthAsyncRequest "acme" false)
          (mkEnv settings_example t0 remote_metrics) world_empty with
  | (_, inr resp) => metrics_snapshot resp = None
  | (_, inl _) => False
  end.
Proof.
  destruct (health_async_interview (mkHealthAsyncRequest "acme" false)
              (mkEnv settings_example t0 remote_metrics) world_empty) as [w' [x | resp]] eqn:Hrun.
  - vm_compute in Hrun. discriminate Hrun.
  - exact (health_metrics_only_verbose (mkHealthAsyncRequest "acme" false)
             (mkEnv settings_example t0 remote_metrics) world_empty w' resp eq_refl Hrun).
Defined.

(** ** global.ledger.query with access enabled *)

(** X19. With global-ledger access enabled, a missing or empty URL is
    refused with 503 before any request; with a URL, exactly one search is
    issued to the global ledger, and its receipts are answered from
    [global_ledger] at cost 100, any failure becoming 503 with the detail
    "Global ledger query failed: " followed by [str(e)]. *)
Theorem global_ledger_enabled_paths (tenant_id root_task_id : string) (e : env) (w : world)
    (Hon : allow_global_ledger (settings e) = true) :
  (truthy (global_ledger_url (settings e)) = false ->
   global_ledger_query tenant_id root_task_id e w
     = (w, inl (HTTPException 503 (DetailText "Global ledger URL not configured")))) /\
  (forall url, configured (global_ledger_url (settings e)) = Some url ->
   global_ledger_query tenant_id root_task_id e w
     = (log_call (GetGlobalSearch (url +:+ "/receipts/search") tenant_id root_task_id) w,
        match global_search (remote e) tenant_id root_task_id with
        | HttpOk rs => inr (rs, metadata GLOBAL_LEDGER 0 false 100)
        | r => inl (HTTPException 503
                     (DetailText ("Global ledger query failed: " +:+ http_error_str r)))
        end)).
Proof.
  unfold global_ledger_query, gl_query_receipts, gl_check_access.
  split.
  - intros Hu. rewrite !bindM_eq. cbn -[String.append]. rewrite Hon. cbn -[String.append].
    rewrite catchM_eq, !bindM_eq. cbn -[String.append]. rewrite Hon, Hu. reflexivity.
  - intros url Hu. unfold configured in Hu.
    destruct (truthy (global_ledger_url (settings e))) eqn:Ht; [|discriminate Hu].
    rewrite !bindM_eq. cbn -[String.append]. rewrite Hon. cbn -[String.append].
    rewrite catchM_eq, !bindM_eq. cbn -[String.append]. rewrite Hon, Ht, Hu.
    cbn -[String.append].
    destruct (global_search (remote e) tenant_id root_task_id); reflexivity.
Qed.

Definition settings_global_on : Settings :=
  mkSettings (Some "http://mirror") (Some "http://asyncgate") true
    (Some "http://global") 60 500 5 100 200 24 168 60.

Lemma global_ledger_enabled_paths_witness :
  global_ledger_query "acme" "root" (mkEnv settings_global_on t0 remote_up) world_empty
    = (log_call (GetGlobalSearch "http://global/receipts/search" "acme" "root") world_empty,
       inr ([header_example], metadata GLOBAL_LEDGER 0 false 100)).
Proof.
  exact (proj2 (global_ledger_enabled_paths "acme" "root" (mkEnv settings_global_on t0 remote_up)
                  world_empty eq_refl) "http://global" eq_refl).
Defined.

(** ** inventory.artifacts.depot.interview *)

Definition depot_params (s : Settings) (request : InventoryArtifactsRequest) : DepotParams :=
  mkDepotParams (ia_tenant_id request) (Z.min (limit (ia_controls request)) (max_limit s))
    (if truthy (ia_root_task_id request) then ia_root_task_id request else None)
    (if truthy (ia_deliverable_id request) then ia_deliverable_id request else None).

(** X20. The inventory endpoint answers 400 without contacting DepotGate
    when neither [root_task_id] nor [deliverable_id] is a non-empty string,
    503 without a request when the DepotGate URL is not configured, and
    503 after its single request when DepotGate fails, with the detail
    "DepotGate metadata query failed: " followed by [str(e)]: unlike the
    search endpoint it has no cache to fall back on. *)
Theorem inventory_errors (dg : DepotGate) (s : Settings) (request : InventoryArtifactsRequest) :
  (truthy (ia_root_task_id request) = false -> truthy (ia_deliverable_id request) = false ->
   inventory_artifacts_depot_interview dg s request
     = ([], inl (HTTPException 400
                   (DetailText "Either root_task_id or deliverable_id is required")))) /\
  (truthy (ia_root_task_id request) || truthy (ia_deliverable_id request) = true ->
   configured (depotgate_url dg) = None ->
   inventory_artifacts_depot_interview dg s request
     = ([], inl (HTTPException 503 (DetailText "DepotGate URL not configured")))) /\
  (truthy (ia_root_task_id request) || truthy (ia_deliverable_id request) = true ->
   forall url, configured (depotgate_url dg) = Some url ->
   (forall data, depot_list dg (depot_params s request) <> HttpOk data) ->
   inventory_artifacts_depot_interview dg s request
     = ([depot_params s request],
        inl (HTTPException 503 (DetailText ("DepotGate metadata query failed: "
               +:+ http_error_str (depot_list dg (depot_params s request))))))).
Proof.
  unfold inventory_artifacts_depot_interview, sm_list_artifacts.
  split; [|split].
  - intros Hr Hd. rewrite Hr, Hd. reflexivity.
  - intros Hany Hu.
    destruct (truthy (ia_root_task_id request)), (truthy (ia_deliverable_id request));
      try discriminate Hany; rewrite Hu; reflexivity.
  - intros Hany url Hu Hfail.
    replace (negb (truthy (ia_root_task_id request)) && negb (truthy (ia_deliverable_id request)))
      with false by (destruct (truthy (ia_root_task_id request)),
                       (truthy (ia_deliverable_id request)); try discriminate Hany; reflexivity).
    rewrite Hu. fold (depot_params s request).
    destruct (depot_list dg (depot_params s request)) as [d|c t|t|t] eqn:Hl;
      [exfalso; exact (Hfail d eq_refl) | reflexivity | reflexivity | reflexivity].
Qed.

Definition depot_down : DepotGate :=
  mkDepotGate (Some "http://depotgate") (fun _ => HttpTransportError connect_error_str).

Definition inventory_request (root : option string) (l : Z) : InventoryArtifactsRequest :=
  mkInventoryArtifactsRequest "acme" root None (mkRequestControls l None 24 false CACHE_OK).

Lemma inventory_errors_witness :
  inventory_artifacts_depot_interview depot_down settings_example (inventory_request (Some "") 10)
    = ([], inl (HTTPException 400
                  (DetailText "Either root_task_id or deliverable_id is required"))) /\
  inventory_artifacts_depot_interview depot_down settings_example (inventory_request (Some "root") 10)
    = ([mkDepotParams "acme" 10 (Some "root") None],
       inl (HTTPException 503 (DetailText
              "DepotGate metadata query failed: All connection attempts failed"))).
Proof.
  split.
  - exact (proj1 (inventory_errors depot_down settings_example (inventory_request (Some "") 10))
             eq_refl eq_refl).
  - exact (proj2 (proj2 (inventory_errors depot_down settings_example
             (inventory_request (Some "root") 10))) eq_refl "http://depotgate" eq_refl
             (fun d H => ltac:(discriminate H))).
Defined.

(** X21. On success the inventory endpoint issues exactly one DepotGate
    request, for the tenant and with the limit clamped to [max_limit]; it
    returns the artifact pointers (none when DepotGate omits them), the
    manifest pointer and the role counts as DepotGate gave them, from
    [storage_metadata], with [truncated] when as many pointers as the
    limit came back and cost [max(1, n / 10)]. *)
Theorem inventory_success (dg : DepotGate) (s : Settings) (request : InventoryArtifactsRequest)
    (url : string) (data : DepotPayload)
    (Hany : truthy (ia_root_task_id request) || truthy (ia_deliverable_id request) = true)
    (Hu : configured (depotgate_url dg) = Some url)
    (Hok : depot_list dg (depot_params s request) = HttpOk data) :
  let lim := Z.min (limit (ia_controls request)) (max_limit s) in
  let pointers := dict_get (d_artifacts data) [] in
  inventory_artifacts_depot_interview dg s request
    = ([depot_params s request],
       inr (mkInventoryArtifactsResponse pointers (d_shipment_manifest_pointer data)
              (d_staged_counts data)
              (metadata STORAGE_METADATA 0 (lim <=? Z.of_nat (length pointers))
                 (Z.max 1 (Z.of_nat (length pointers) / 10))))) /\
  dp_limit (depot_params s request) <= max_limit s /\
  dp_tenant_id (depot_params s request) = ia_tenant_id request.
Proof.
  intros lim pointers. split; [|split; [cbn; lia | reflexivity]].
  unfold inventory_artifacts_depot_interview, sm_list_artifacts.
  replace (negb (truthy (ia_root_task_id request)) && negb (truthy (ia_deliverable_id request)))
    with false by (destruct (truthy (ia_root_task_id request)),
                     (truthy (ia_deliverable_id request)); try discriminate Hany; reflexivity).
  rewrite Hu. fold (depot_params s request). rewrite Hok. reflexivity.
Qed.

Definition depot_up : DepotGate :=
  mkDepotGate (Some "http://depotgate")
    (fun p => HttpOk (mkDepotPayload
       (Some [mkArtifactPointer "a1" "root" "text/plain" 12 "final_output" None None None])
       (Some "manifest://1") None)).

Lemma inventory_success_witness :
  inventory_artifacts_depot_interview depot_up settings_example (inventory_request (Some "root") 1000)
    = ([mkDepotParams "acme" 200 (Some "root") None],
       inr (mkInventoryArtifactsResponse
              [mkArtifactPointer "a1" "root" "text/plain" 12 "final_output" None None None]
              (Some "manifest://1") None (metadata STORAGE_METADATA 0 false 1))).
Proof.
  exact (proj1 (inventory_success depot_up settings_example (inventory_request (Some "root") 1000)
                  "http://depotgate" _ eq_refl eq_refl eq_refl)).
Defined.

(** ** search.receipts.interview: what it never changes *)

(** [w'] differs from [w] at most by one logged mirror search. *)
Definition only_mirror_search_logged (w w' : world) : Prop :=
  w_status_cache w' = w_status_cache w /\
  w_receipt_headers w' = w_receipt_headers w /\
  w_receipt_cache w' = w_receipt_cache w /\
  w_poll_cache w' = w_poll_cache w /\
  w_rate_limiter w' = w_rate_limiter w /\
  (w_calls w' = w_calls w \/ exists url p, w_calls w' = w_calls w ++ [GetMirrorSearch url p]).

Lemma only_mirror_search_logged_refl w : only_mirror_search_logged w w.
Proof. repeat split; auto. Qed.

Lemma lm_query_receipts_frame tenant_id root_task_id phase recipient_ai since limit e w :
  only_mirror_search_logged w
    (fst (lm_query_receipts tenant_id root_task_id phase recipient_ai since limit e w)).
Proof.
  destruct (lm_query_receipts_cases tenant_id root_task_id phase recipient_ai since limit e w)
    as [[_ H] | [url [_ H]]]; rewrite H; cbn [fst].
  - apply only_mirror_search_logged_refl.
  - repeat split. right. eexists _, _. reflexivity.
Qed.

(** X22. A search never writes to any cache or to the rate limiter, also
    when it falls back to the ledger mirror: the mirror's receipts are not
    stored in the projection cache, and the only effect is at most one
    mirror search request. *)
Theorem search_never_writes_caches (request : SearchReceiptsRequest) (e : env) (w : world) :
  only_mirror_search_logged w (fst (search_receipts_interview request e w)).
Proof.
  rewrite search_receipts_interview_eq. cbv zeta.
  destruct (fst (pc_search w _ _ _ _ _ _)) as [|h hs];
    [|apply only_mirror_search_logged_refl].
  destruct (freshness (sq_controls request)); try apply only_mirror_search_logged_refl;
  match goal with |- context [lm_query_receipts ?a ?b ?c ?d ?f ?g e w] =>
    pose proof (lm_query_receipts_frame a b c d f g e w) as Hf;
    destruct (lm_query_receipts a b c d f g e w) as [w' [x|rs]]; cbn [fst] in Hf
  end;
  [destruct (is_SourceUnavailableError x) | | destruct (is_SourceUnavailableError x) |];
  exact Hf.
Qed.

(** ** queue.async.interview: the request sent to AsyncGate *)

Lemma cp_get_cached_calls (cache_key : string) e w :
  w_calls (fst (cp_get_cached cache_key e w)) = w_calls w.
Proof.
  unfold cp_get_cached. rewrite !bindM_eq. cbn -[cache_age_ms].
  destruct (w_poll_cache w !! cache_key) as [[d t]|]; [destruct (_ <? _)|]; reflexivity.
Qed.

Lemma cp_check_rate_limit_calls (component : string) e w :
  w_calls (fst (cp_check_rate_limit component e w)) = w_calls w.
Proof.
  unfold cp_check_rate_limit. rewrite !bindM_eq. cbn -[recent_calls].
  destruct (_ <=? _); reflexivity.
Qed.

Lemma queue_async_interview_world (request : QueueAsyncRequest) e w :
  fst (queue_async_interview request e w)
  = fst (cp_poll_asyncgate_queue (qa_tenant_id request) (qa_queue_id request)
           (Z.min (qa_limit request) 50) (qa_include_examples request) e w).
Proof.
  unfold queue_async_interview. rewrite catchM_eq, bindM_eq.
  destruct (cp_poll_asyncgate_queue _ _ _ _ e w) as [w1 [x | [data age_ms]]]; [|reflexivity].
  destruct (is_SourceUnavailableError x); [reflexivity|].
  destruct (is_DataSourceError x); reflexivity.
Qed.

(** X23. A queue request reaches AsyncGate at most once, and then for the
    request's tenant, with [include_examples] as asked and a limit of at
    most 50, whatever limit the caller gave. *)
Theorem queue_request_limit_bounded (request : QueueAsyncRequest) (e : env) (w : world) :
  let w' := fst (queue_async_interview request e w) in
  w_calls w' = w_calls w \/
  exists url p, w_calls w' = w_calls w ++ [GetAsyncGateQueue url p] /\
    qp_limit p <= 50 /\ qp_tenant_id p = qa_tenant_id request /\
    qp_include_examples p = qa_include_examples request.
Proof.
  cbv zeta. rewrite queue_async_interview_world.
  unfold cp_poll_asyncgate_queue. rewrite bindM_eq.
  pose proof (cp_get_cached_calls (queue_cache_key (qa_tenant_id request) (qa_queue_id request)
                (Z.min (qa_limit request) 50) (qa_include_examples request)) e w) as Hc.
  destruct (cp_get_cached _ e w) as [w1 [x | [c|]]]; cbn [fst] in Hc;
    [left; exact Hc | left; exact Hc |].
  cbn -[cp_check_rate_limit queue_cache_key String.append].
  destruct (configured (asyncgate_url (settings e))) as [url|]; [|left; exact Hc].
  rewrite bindM_eq.
  pose proof (cp_check_rate_limit_calls "asyncgate" e w1) as Hr.
  destruct (cp_check_rate_limit "asyncgate" e w1) as [w2 [x | [|]]]; cbn [fst] in Hr;
    [left; cbn [fst]; congruence | | left; cbn; congruence].
  cbn -[queue_cache_key String.append].
  right. eexists _, _. split.
  - destruct (asyncgate_queue (remote e) _); cbn; rewrite Hr, Hc; reflexivity.
  - cbn. split; [lia | split; reflexivity].
Qed.
